(** * Remoting: the WindowManager of the window-coordination protocol

    A shallow embedding of [src/cascadia/Remoting/WindowManager.cpp].

    The WindowManager is a stateful object that talks to the platform (COM
    registration and activation, process handles, waits, threads) and to two
    other runtime classes, the Monarch and the Peasant.  The embedding keeps

    - the object's fields in a record,
    - the calls that leave the object in a trace of events, in program order,
    - the answers of the platform in an environment record and, for the
      election watcher, in a schedule with one entry per iteration of its loop,
    - the ways a call can fail to return (a thrown error, a call through a null
      reference, [std::terminate], [ExitProcess], a wait that is still blocked)
      in the outcome of a small state monad. *)

From Stdlib Require Import ZArith List String Bool Lia.
Import ListNotations.
Open Scope Z_scope.

(** ** Platform types and constants *)

Definition DWORD := Z.
Definition HANDLE := Z.
Definition HRESULT := Z.
Definition uint64_t := Z.

Definition nullptr : HANDLE := 0.

(** The values of [winbase.h]. *)
Definition WAIT_OBJECT_0 : DWORD := 0.
Definition WAIT_TIMEOUT : DWORD := 258.
Definition WAIT_FAILED : DWORD := 4294967295.
Definition ERROR_INVALID_HANDLE : DWORD := 6.

(** [static_cast<DWORD>] of a 64-bit value keeps its low 32 bits. *)
Definition static_cast_DWORD (x : uint64_t) : DWORD := x mod 2 ^ 32.

(** Modelled from the spec: [CommandlineArgs.h] is not among the sources.  The
    value is opaque to the WindowManager: an argv, a working directory and an
    optional explicit target window. *)
Record CommandlineArgs := {
  argv : list string;
  cwd : string;
  target : option string
}.

(** ** The collaborators *)

Module Monarch.

(** The proxy of the Monarch that activation hands out.  The class itself is
    not among the sources: a handle is known by the answers it gives, the pid
    of the process that owns the Monarch and its routing decision. *)
Record t := {
  ref : nat;
  GetPID : uint64_t;
  ProposeCommandline : CommandlineArgs -> bool
}.

End Monarch.

Module Peasant.

(** The local Peasant object; the WindowManager only holds a reference. *)
Record t := { ref : nat }.

End Peasant.

(** ** Events: every call that leaves the WindowManager *)

Inductive Event :=
| EvCreateEvent (h : HANDLE)
| EvCoRegisterClassObject (hr : HRESULT) (cookie : DWORD)
| EvCoRevokeClassObject (cookie : DWORD)
| EvCreateInstance (m : Monarch.t)
| EvGetPID (m : Monarch.t)
| EvProposeCommandline (m : Monarch.t) (args : CommandlineArgs)
| EvAddPeasant (m : Monarch.t) (p : option Peasant.t)
| EvHandleActivatePeasant (m : Monarch.t) (p : Peasant.t)
| EvFindTargetWindowRequested (m : Monarch.t)
| EvMakePeasant (p : Peasant.t)
| EvExecuteCommandline (p : Peasant.t) (args : CommandlineArgs)
| EvTraceLoggingWrite (name : string)
| EvThreadStart
| EvThreadJoin
| EvOpenProcess (pid : DWORD) (h : HANDLE)
| EvWaitForMultipleObjects (waits : list HANDLE) (result : DWORD)
| EvCloseHandle (h : HANDLE)
| EvSetEvent (h : HANDLE)
| EvPrintf (fmt : string) (args : list Z)
| EvExitProcess (code : Z).

(** ** The object *)

(** A [std::thread] member: no thread, a thread whose function is running, a
    thread whose function has returned and that nobody joined yet. *)
Inductive thread := NotAThread | Running | Finished.

Definition joinable (t : thread) : bool :=
  match t with
  | NotAThread => false
  | Running | Finished => true
  end.

Record WindowManager := {
  _shouldCreateWindow : bool;
  _registrationHostClass : DWORD;
  _monarch : option Monarch.t;
  _peasant : option Peasant.t;
  _monarchWaitInterrupt : HANDLE;
  _electionThread : thread
}.

(** The process around the object: the object, how many activations and
    allocations the process made so far, and what it did. *)
Record Process := {
  self : WindowManager;
  activations : nat;
  allocations : nat;
  trace : list Event
}.

(** What the platform answers the main thread. *)
Record Platform := {
  GetCurrentProcessId : DWORD;
  CreateEventW : HANDLE;
  CoRegisterClassObject : HRESULT * DWORD;
  create_instance : nat -> Monarch.t
}.

(** What the platform answers the watcher in one iteration of its loop: the
    handle [OpenProcess] returns, the result of the wait when both handles are
    valid, and the last error of a failed wait. *)
Record Round := {
  OpenProcess : HANDLE;
  signalled : DWORD;
  lastError : DWORD
}.

(** ** Outcomes and the monad *)

Inductive Halt :=
| HResultError (hr : HRESULT)
| ResultException
| NullReference
| StdTerminate
| StdSystemError
| ProcessExit (code : Z)
| Pending.

Inductive Outcome (A : Type) :=
| Done (a : A) (p : Process)
| Halted (h : Halt) (p : Process).

Arguments Done {A} a p.
Arguments Halted {A} h p.

Definition M (A : Type) := Process -> Outcome A.

Definition ret {A} (a : A) : M A := fun p => Done a p.

Definition bind {A B} (c : M A) (k : A -> M B) : M B :=
  fun p =>
    match c p with
    | Done a p' => k a p'
    | Halted h p' => Halted h p'
    end.

Definition halt {A} (h : Halt) : M A := fun p => Halted h p.

Declare Scope wm_scope.
Delimit Scope wm_scope with wm.
Notation "x <- c1 ;; c2" := (bind c1 (fun x => c2))
  (at level 100, c1 at next level, right associativity) : wm_scope.
Notation "c1 ;; c2" := (bind c1 (fun _ => c2))
  (at level 100, right associativity) : wm_scope.
Open Scope wm_scope.

Definition state_of {A} (o : Outcome A) : Process :=
  match o with
  | Done _ p => p
  | Halted _ p => p
  end.

(** *** Field access *)

Definition this : M WindowManager := fun p => Done (self p) p.

(** The process after its object changed by [f]. *)
Definition modified (f : WindowManager -> WindowManager) (p : Process) : Process :=
  {| self := f (self p);
     activations := activations p;
     allocations := allocations p;
     trace := trace p |}.

Definition update (f : WindowManager -> WindowManager) : M unit :=
  fun p => Done tt (modified f p).

Definition set_shouldCreateWindow (b : bool) (w : WindowManager) : WindowManager :=
  {| _shouldCreateWindow := b;
     _registrationHostClass := _registrationHostClass w;
     _monarch := _monarch w;
     _peasant := _peasant w;
     _monarchWaitInterrupt := _monarchWaitInterrupt w;
     _electionThread := _electionThread w |}.

Definition set_registrationHostClass (c : DWORD) (w : WindowManager) : WindowManager :=
  {| _shouldCreateWindow := _shouldCreateWindow w;
     _registrationHostClass := c;
     _monarch := _monarch w;
     _peasant := _peasant w;
     _monarchWaitInterrupt := _monarchWaitInterrupt w;
     _electionThread := _electionThread w |}.

Definition set_monarch (m : option Monarch.t) (w : WindowManager) : WindowManager :=
  {| _shouldCreateWindow := _shouldCreateWindow w;
     _registrationHostClass := _registrationHostClass w;
     _monarch := m;
     _peasant := _peasant w;
     _monarchWaitInterrupt := _monarchWaitInterrupt w;
     _electionThread := _electionThread w |}.

Definition set_peasant (x : option Peasant.t) (w : WindowManager) : WindowManager :=
  {| _shouldCreateWindow := _shouldCreateWindow w;
     _registrationHostClass := _registrationHostClass w;
     _monarch := _monarch w;
     _peasant := x;
     _monarchWaitInterrupt := _monarchWaitInterrupt w;
     _electionThread := _electionThread w |}.

Definition set_monarchWaitInterrupt (h : HANDLE) (w : WindowManager) : WindowManager :=
  {| _shouldCreateWindow := _shouldCreateWindow w;
     _registrationHostClass := _registrationHostClass w;
     _monarch := _monarch w;
     _peasant := _peasant w;
     _monarchWaitInterrupt := h;
     _electionThread := _electionThread w |}.

Definition set_electionThread (t : thread) (w : WindowManager) : WindowManager :=
  {| _shouldCreateWindow := _shouldCreateWindow w;
     _registrationHostClass := _registrationHostClass w;
     _monarch := _monarch w;
     _peasant := _peasant w;
     _monarchWaitInterrupt := _monarchWaitInterrupt w;
     _electionThread := t |}.

(** *** Calls that leave the object *)

(** The process after it did [es]. *)
Definition logged (es : list Event) (p : Process) : Process :=
  {| self := self p;
     activations := activations p;
     allocations := allocations p;
     trace := trace p ++ es |}.

Definition emit (e : Event) : M unit :=
  fun p => Done tt (logged [e] p).

(** A call through [_monarch]; the proxy is a null reference until
    [_createMonarch] ran. *)
Definition withMonarch {A} (call : Monarch.t -> M A) : M A :=
  w <- this ;;
  match _monarch w with
  | Some m => call m
  | None => halt NullReference
  end.

(** A call through [_peasant]. *)
Definition withPeasant {A} (call : Peasant.t -> M A) : M A :=
  w <- this ;;
  match _peasant w with
  | Some x => call x
  | None => halt NullReference
  end.

(** [TraceLoggingWrite]: a telemetry record.  Its payload expressions are only
    evaluated when a listener is enabled and are left out. *)
Definition TraceLoggingWrite (name : string) : M unit :=
  emit (EvTraceLoggingWrite name).

Definition printf (fmt : string) (args : list Z) : M unit :=
  emit (EvPrintf fmt args).

(** [winrt::check_hresult]: a failure code is thrown. *)
Definition check_hresult (hr : HRESULT) : M unit :=
  if hr <? 0 then halt (HResultError hr) else ret tt.

(** [winrt::make_self<Peasant>()]: a new object. *)
Definition make_self_Peasant : M Peasant.t :=
  fun p =>
    let x := {| Peasant.ref := allocations p |} in
    Done x {| self := self p;
              activations := activations p;
              allocations := S (allocations p);
              trace := trace p ++ [EvMakePeasant x] |}.

(** [WaitForMultipleObjects(2, waits, FALSE, INFINITE)].  A null entry is not a
    handle of an object: the platform fails the call, whatever the state of
    the other entry. *)
Definition WaitForMultipleObjects (waits : list HANDLE) (r : Round) : DWORD :=
  if existsb (Z.eqb nullptr) waits then WAIT_FAILED else signalled r.

Definition GetLastError (waits : list HANDLE) (r : Round) : DWORD :=
  if existsb (Z.eqb nullptr) waits then ERROR_INVALID_HANDLE else lastError r.

(** The destructor of [wil::unique_handle]: a valid handle is closed. *)
Definition unique_handle_reset (h : HANDLE) : M unit :=
  if h =? nullptr then ret tt else emit (EvCloseHandle h).

(** ** WindowManager.cpp *)

Definition _registerAsMonarch (env : Platform) : M unit :=
  let '(hr, cookie) := CoRegisterClassObject env in
  emit (EvCoRegisterClassObject hr cookie) ;;
  (if hr <? 0 then ret tt else update (set_registrationHostClass cookie)) ;;
  check_hresult hr.

Definition _createMonarch (env : Platform) : M unit :=
  fun p =>
    let m := create_instance env (activations p) in
    Done tt {| self := set_monarch (Some m) (self p);
               activations := S (activations p);
               allocations := allocations p;
               trace := trace p ++ [EvCreateInstance m] |}.

Definition _areWeTheKing (env : Platform) : M bool :=
  kingPID <- withMonarch (fun m => emit (EvGetPID m) ;; ret (Monarch.GetPID m)) ;;
  let ourPID := GetCurrentProcessId env in
  ret (ourPID =? kingPID).

Definition _createMonarchAndCallbacks (env : Platform) : M unit :=
  _createMonarch env ;;
  isKing <- _areWeTheKing env ;;
  TraceLoggingWrite "WindowManager_ConnectedToMonarch" ;;
  w <- this ;;
  match _peasant w with
  | Some x => withMonarch (fun m => emit (EvHandleActivatePeasant m x))
  | None => ret tt
  end ;;
  if negb isKing
  then ret tt
  else withMonarch (fun m => emit (EvFindTargetWindowRequested m)).

Definition _createOurPeasant : M (option Peasant.t) :=
  x <- make_self_Peasant ;;
  update (set_peasant (Some x)) ;;
  w <- this ;;
  withMonarch (fun m => emit (EvAddPeasant m (_peasant w))) ;;
  TraceLoggingWrite "WindowManager_CreateOurPeasant" ;;
  ret (_peasant w).

Definition _electionNight2020 (env : Platform) : M bool :=
  _createMonarchAndCallbacks env ;;
  w <- this ;;
  withMonarch (fun m => emit (EvAddPeasant m (_peasant w))) ;;
  king <- _areWeTheKing env ;;
  if king then ret true else ret false.

(** [_electionThread = std::thread(...)]: the new thread is started, then
    move-assigned; assigning to a thread that is still joinable is
    [std::terminate]. *)
Definition _createPeasantThread : M unit :=
  emit EvThreadStart ;;
  w <- this ;;
  if joinable (_electionThread w)
  then halt StdTerminate
  else update (set_electionThread Running).

(** The loop of [_waitOnMonarchThread], one schedule entry per iteration.
    When the schedule is used up the watcher is still in its loop. *)
Fixpoint _waitOnMonarchThread_loop (env : Platform) (waits1 : HANDLE)
    (schedule : list Round) : M unit :=
  match schedule with
  | [] => halt Pending
  | r :: rest =>
      pid <- withMonarch (fun m => emit (EvGetPID m) ;; ret (Monarch.GetPID m)) ;;
      let hMonarch := OpenProcess r in
      emit (EvOpenProcess (static_cast_DWORD pid) hMonarch) ;;
      let waits := [hMonarch; waits1] in
      let waitResult := WaitForMultipleObjects waits r in
      emit (EvWaitForMultipleObjects waits waitResult) ;;
      exitRequested <-
        (if waitResult =? WAIT_OBJECT_0 + 0 then
           TraceLoggingWrite "WindowManager_MonarchDied" ;;
           _electionNight2020 env
         else if waitResult =? WAIT_OBJECT_0 + 1 then
           TraceLoggingWrite "WindowManager_MonarchWaitInterrupted" ;;
           ret true
         else if waitResult =? WAIT_TIMEOUT then
           printf "Wait timed out. This should be impossible.\n" [] ;;
           ret true
         else
           let gle := GetLastError waits r in
           printf "WaitForMultipleObjects returned: %d\n" [waitResult] ;;
           printf "Wait error: %d\n" [gle] ;;
           emit (EvExitProcess 0) ;;
           halt (ProcessExit 0)) ;;
      unique_handle_reset hMonarch ;;
      if exitRequested : bool
      then ret tt
      else _waitOnMonarchThread_loop env waits1 rest
  end.

Definition _waitOnMonarchThread (env : Platform) (schedule : list Round) : M unit :=
  w <- this ;;
  _waitOnMonarchThread_loop env (_monarchWaitInterrupt w) schedule.

(** The function of the election thread, [[this] { _waitOnMonarchThread(); }]:
    when it returns the thread has finished. *)
Definition electionThread_main (env : Platform) (schedule : list Round) : M unit :=
  _waitOnMonarchThread env schedule ;;
  update (set_electionThread Finished).

(** [_electionThread.join()]: the caller waits until the function of the
    thread has returned; [schedule] is what the watcher meets meanwhile. *)
Definition electionThread_join (env : Platform) (schedule : list Round) : M unit :=
  emit EvThreadJoin ;;
  w <- this ;;
  match _electionThread w with
  | NotAThread => halt StdSystemError
  | Finished => update (set_electionThread NotAThread)
  | Running =>
      electionThread_main env schedule ;;
      update (set_electionThread NotAThread)
  end.

(** [wil::unique_event::create()] throws when no event could be created. *)
Definition monarchWaitInterrupt_create (env : Platform) : M unit :=
  let h := CreateEventW env in
  emit (EvCreateEvent h) ;;
  if h =? nullptr
  then halt ResultException
  else update (set_monarchWaitInterrupt h).

(** [WindowManager::WindowManager()] *)
Definition WindowManager_ctor (env : Platform) : M unit :=
  monarchWaitInterrupt_create env ;;
  _registerAsMonarch env ;;
  _createMonarchAndCallbacks env.

(** [WindowManager::~WindowManager()] *)
Definition WindowManager_dtor (env : Platform) (schedule : list Round) : M unit :=
  w <- this ;;
  emit (EvCoRevokeClassObject (_registrationHostClass w)) ;;
  update (set_registrationHostClass 0) ;;
  emit (EvSetEvent (_monarchWaitInterrupt w)) ;;
  w' <- this ;;
  if joinable (_electionThread w')
  then electionThread_join env schedule
  else ret tt.

Definition ProposeCommandline (env : Platform) (args : CommandlineArgs) : M unit :=
  isKing <- _areWeTheKing env ;;
  decision <-
    (if isKing : bool
     then ret true
     else withMonarch (fun m =>
            emit (EvProposeCommandline m args) ;;
            ret (Monarch.ProposeCommandline m args))) ;;
  update (set_shouldCreateWindow decision) ;;
  w <- this ;;
  if _shouldCreateWindow w then
    _createOurPeasant ;;
    (if negb isKing then _createPeasantThread else ret tt) ;;
    withPeasant (fun x => emit (EvExecuteCommandline x args))
  else
    ret tt.

Definition ShouldCreateWindow : M bool :=
  w <- this ;;
  ret (_shouldCreateWindow w).

Definition CurrentWindow : M (option Peasant.t) :=
  w <- this ;;
  ret (_peasant w).

(** The object before its constructor ran: no proxy, no peasant, no event, no
    thread.  The two plain members get their value from the class declaration,
    which is not among the sources, so they are left open. *)
Definition unconstructed (flag : bool) (cookie : DWORD) : Process :=
  {| self := {| _shouldCreateWindow := flag;
                _registrationHostClass := cookie;
                _monarch := None;
                _peasant := None;
                _monarchWaitInterrupt := nullptr;
                _electionThread := NotAThread |};
     activations := 0;
     allocations := 0;
     trace := [] |}.

(** ** Three processes of the scenarios

    [P1] is launched first and owns the Monarch.  [P2] and [P3] are launched
    while [P1] is king; when [P1] dies the next activation reaches a Monarch
    that lives in [P2]. *)

Definition plainLaunch : CommandlineArgs :=
  {| argv := ["wt"%string]; cwd := "/a"%string; target := None |}.

Definition intoWindow1 : CommandlineArgs :=
  {| argv := ["wt"%string; "-w"%string; "1"%string];
     cwd := "/a"%string;
     target := Some "existing-window-1"%string |}.

(** A Monarch that owns the window every explicit target names. *)
Definition monarchIn (n : nat) (pid : uint64_t) : Monarch.t :=
  {| Monarch.ref := n;
     Monarch.GetPID := pid;
     Monarch.ProposeCommandline :=
       fun args => match target args with Some _ => false | None => true end |}.

Definition succession (n : nat) : Monarch.t :=
  match n with
  | O => monarchIn 0 4100
  | S _ => monarchIn 1 5200
  end.

Definition P1 : Platform :=
  {| GetCurrentProcessId := 4100;
     CreateEventW := 72;
     CoRegisterClassObject := (0, 1);
     create_instance := succession |}.

Definition P2 : Platform :=
  {| GetCurrentProcessId := 5200;
     CreateEventW := 76;
     CoRegisterClassObject := (0, 2);
     create_instance := succession |}.

Definition P3 : Platform :=
  {| GetCurrentProcessId := 6300;
     CreateEventW := 80;
     CoRegisterClassObject := (0, 3);
     create_instance := succession |}.

(** A process right after construction, and after its first proposal. *)
Definition constructed (env : Platform) : Process :=
  state_of (WindowManager_ctor env (unconstructed false 0)).

Definition launched (env : Platform) (args : CommandlineArgs) : Process :=
  state_of (ProposeCommandline env args (constructed env)).

(** Iterations of the watcher: the coordinator died, the interrupt was set,
    the wait timed out, the wait failed, the coordinator could not be opened. *)
Definition monarchDied : Round :=
  {| OpenProcess := 340; signalled := WAIT_OBJECT_0; lastError := 0 |}.

Definition interrupted : Round :=
  {| OpenProcess := 344; signalled := WAIT_OBJECT_0 + 1; lastError := 0 |}.

Definition timedOut : Round :=
  {| OpenProcess := 348; signalled := WAIT_TIMEOUT; lastError := 0 |}.


Definition notOpened : Round :=
  {| OpenProcess := nullptr; signalled := WAIT_OBJECT_0; lastError := 0 |}.

(** ** Vocabulary of the statements *)

(** What closing the coordinator's handle at the end of an iteration does. *)
Definition closing (h : HANDLE) : list Event :=
  if h =? nullptr then [] else [EvCloseHandle h].

Definition isThreadStart (e : Event) : bool :=
  match e with EvThreadStart => true | _ => false end.

Definition isProposeCommandline (e : Event) : bool :=
  match e with EvProposeCommandline _ _ => true | _ => false end.

Definition isCoRevokeClassObject (e : Event) : bool :=
  match e with EvCoRevokeClassObject _ => true | _ => false end.

Definition isSetEvent (e : Event) : bool :=
  match e with EvSetEvent _ => true | _ => false end.

(** How many watcher threads a trace started. *)
Definition watchersStarted (es : list Event) : nat :=
  List.length (filter isThreadStart es).

(** A computation only ever adds to the trace. *)
Definition extends {A} (c : M A) : Prop :=
  forall p, exists es, trace (state_of (c p)) = trace p ++ es.

(** Proposals made one after the other on the same object. *)
Fixpoint proposals (env : Platform) (argss : list CommandlineArgs) : M unit :=
  match argss with
  | [] => ret tt
  | args :: rest => ProposeCommandline env args ;; proposals env rest
  end.

(** The calls of [_createMonarchAndCallbacks] on [p], in order. *)
Definition connecting (env : Platform) (p : Process) : list Event :=
  let m' := create_instance env (activations p) in
  [EvCreateInstance m'; EvGetPID m';
   EvTraceLoggingWrite "WindowManager_ConnectedToMonarch"]
  ++ match _peasant (self p) with
     | Some x => [EvHandleActivatePeasant m' x]
     | None => []
     end
  ++ (if GetCurrentProcessId env =? Monarch.GetPID m'
      then [EvFindTargetWindowRequested m']
      else []).

(** The process after one more activation, having done [es]. *)
Definition connected (env : Platform) (p : Process) (es : list Event) : Process :=
  {| self := set_monarch (Some (create_instance env (activations p))) (self p);
     activations := S (activations p);
     allocations := allocations p;
     trace := trace p ++ es |}.

(** The calls that open an iteration of the watcher connected to [m]. *)
Definition polling (m : Monarch.t) (waits1 : HANDLE) (r : Round) : list Event :=
  [EvGetPID m;
   EvOpenProcess (static_cast_DWORD (Monarch.GetPID m)) (OpenProcess r);
   EvWaitForMultipleObjects [OpenProcess r; waits1]
     (WaitForMultipleObjects [OpenProcess r; waits1] r)].


(** Counting the events of one kind in a trace. *)
Definition count (f : Event -> bool) (es : list Event) : nat :=
  List.length (filter f es).

Definition isCreateInstance (e : Event) : bool :=
  match e with EvCreateInstance _ => true | _ => false end.

Definition isAddPeasant (e : Event) : bool :=
  match e with EvAddPeasant _ _ => true | _ => false end.

Definition isMakePeasant (e : Event) : bool :=
  match e with EvMakePeasant _ => true | _ => false end.

Definition isExecuteCommandline (e : Event) : bool :=
  match e with EvExecuteCommandline _ _ => true | _ => false end.

(** [OpenProcess] returned a handle. *)
Definition isOpenedHandle (e : Event) : bool :=
  match e with EvOpenProcess _ h => negb (h =? nullptr) | _ => false end.

Definition isCloseHandle (e : Event) : bool :=
  match e with EvCloseHandle _ => true | _ => false end.

Definition isFindTargetWindowRequested (e : Event) : bool :=
  match e with EvFindTargetWindowRequested _ => true | _ => false end.

(** The Peasant an [AddPeasant] passes, if the event is one. *)
Definition registers (x : option Peasant.t) (e : Event) : Prop :=
  match e with
  | EvAddPeasant _ y => y = x
  | _ => True
  end.

(** How a run of the watcher can end, and what it then did with the process
    handles it opened: it returned or is still in its loop, and every handle
    it opened is closed; or it ended the process, with exit code 0, and at
    most the handle of the last iteration is still open. *)
Definition watcher_outcome (o : Outcome unit) (es : list Event) : Prop :=
  match o with
  | Done _ _ | Halted Pending _ =>
      count isOpenedHandle es = count isCloseHandle es
  | Halted (ProcessExit code) _ =>
      code = 0 /\
      (count isCloseHandle es <= count isOpenedHandle es <= S (count isCloseHandle es))%nat
  | Halted _ _ => False
  end.

(** A process whose registration as a class object is refused ([E_FAIL]). *)
Definition P4 : Platform :=
  {| GetCurrentProcessId := 7400;
     CreateEventW := 84;
     CoRegisterClassObject := (-2147467259, 0);
     create_instance := succession |}.

(** * Proofs *)

Ltac wm_unfold :=
  unfold ProposeCommandline, ShouldCreateWindow, CurrentWindow, WindowManager_ctor,
    WindowManager_dtor, monarchWaitInterrupt_create, electionThread_join,
    electionThread_main, _waitOnMonarchThread, _createPeasantThread,
    _electionNight2020, _createOurPeasant, _createMonarchAndCallbacks,
    _areWeTheKing, _createMonarch, _registerAsMonarch, unique_handle_reset,
    make_self_Peasant, check_hresult, printf, TraceLoggingWrite, withPeasant,
    withMonarch, emit, update, this, halt, bind, ret, logged, modified in *.

(** Open the process record, then run the computation. *)
Ltac wm_open p :=
  destruct p as [[? ? ? ? ? ?] ? ? ?]; simpl in *; subst.

Ltac wm_run :=
  wm_unfold; simpl; repeat rewrite <- app_assoc; simpl.

(** ** Kingship *)

Lemma areWeTheKing_eq env p m :
  _monarch (self p) = Some m ->
  _areWeTheKing env p =
    Done (GetCurrentProcessId env =? Monarch.GetPID m) (logged [EvGetPID m] p).
Proof.
  intros Hm. wm_open p. wm_run. reflexivity.
Qed.

Lemma areWeTheKing_null env p :
  _monarch (self p) = None ->
  _areWeTheKing env p = Halted NullReference p.
Proof.
  intros Hm. wm_open p. wm_run. reflexivity.
Qed.

(** ** ProposeCommandline, case by case *)

Lemma ProposeCommandline_king env args p m :
  _monarch (self p) = Some m ->
  GetCurrentProcessId env = Monarch.GetPID m ->
  let x := {| Peasant.ref := allocations p |} in
  ProposeCommandline env args p =
    Done tt
      {| self := set_peasant (Some x) (set_shouldCreateWindow true (self p));
         activations := activations p;
         allocations := S (allocations p);
         trace := trace p ++
           [EvGetPID m; EvMakePeasant x; EvAddPeasant m (Some x);
            EvTraceLoggingWrite "WindowManager_CreateOurPeasant";
            EvExecuteCommandline x args] |}.
Proof.
  intros Hm Hk x. wm_open p. wm_run.
  rewrite Hk, Z.eqb_refl. wm_run. reflexivity.
Qed.

Lemma ProposeCommandline_subject_create env args p m :
  _monarch (self p) = Some m ->
  GetCurrentProcessId env <> Monarch.GetPID m ->
  Monarch.ProposeCommandline m args = true ->
  joinable (_electionThread (self p)) = false ->
  let x := {| Peasant.ref := allocations p |} in
  ProposeCommandline env args p =
    Done tt
      {| self := set_electionThread Running
                   (set_peasant (Some x) (set_shouldCreateWindow true (self p)));
         activations := activations p;
         allocations := S (allocations p);
         trace := trace p ++
           [EvGetPID m; EvProposeCommandline m args;
            EvMakePeasant x; EvAddPeasant m (Some x);
            EvTraceLoggingWrite "WindowManager_CreateOurPeasant";
            EvThreadStart;
            EvExecuteCommandline x args] |}.
Proof.
  intros Hm Hk Hd Hj x. wm_open p. wm_run.
  apply Z.eqb_neq in Hk. rewrite Hk. wm_run.
  rewrite Hd. wm_run. rewrite Hj. wm_run. reflexivity.
Qed.

Lemma ProposeCommandline_subject_twice env args p m :
  _monarch (self p) = Some m ->
  GetCurrentProcessId env <> Monarch.GetPID m ->
  Monarch.ProposeCommandline m args = true ->
  joinable (_electionThread (self p)) = true ->
  let x := {| Peasant.ref := allocations p |} in
  ProposeCommandline env args p =
    Halted StdTerminate
      {| self := set_peasant (Some x) (set_shouldCreateWindow true (self p));
         activations := activations p;
         allocations := S (allocations p);
         trace := trace p ++
           [EvGetPID m; EvProposeCommandline m args;
            EvMakePeasant x; EvAddPeasant m (Some x);
            EvTraceLoggingWrite "WindowManager_CreateOurPeasant";
            EvThreadStart] |}.
Proof.
  intros Hm Hk Hd Hj x. wm_open p. wm_run.
  apply Z.eqb_neq in Hk. rewrite Hk. wm_run.
  rewrite Hd. wm_run. rewrite Hj. wm_run. reflexivity.
Qed.

Lemma ProposeCommandline_subject_suppress env args p m :
  _monarch (self p) = Some m ->
  GetCurrentProcessId env <> Monarch.GetPID m ->
  Monarch.ProposeCommandline m args = false ->
  ProposeCommandline env args p =
    Done tt
      {| self := set_shouldCreateWindow false (self p);
         activations := activations p;
         allocations := allocations p;
         trace := trace p ++ [EvGetPID m; EvProposeCommandline m args] |}.
Proof.
  intros Hm Hk Hd. wm_open p. wm_run.
  apply Z.eqb_neq in Hk. rewrite Hk. wm_run.
  rewrite Hd. wm_run. reflexivity.
Qed.

Lemma ShouldCreateWindow_eq p :
  ShouldCreateWindow p = Done (_shouldCreateWindow (self p)) p.
Proof. reflexivity. Qed.

(** ** Connecting and electing *)

Lemma createMonarchAndCallbacks_eq env p :
  _createMonarchAndCallbacks env p = Done tt (connected env p (connecting env p)).
Proof.
  wm_open p. unfold connected, connecting. wm_run.
  destruct (GetCurrentProcessId env =? _) eqn:Hk;
    match goal with
    | |- context [match ?o with Some _ => _ | None => _ end] => destruct o
    end; wm_run; reflexivity.
Qed.

Lemma electionNight2020_eq env p :
  let m' := create_instance env (activations p) in
  _electionNight2020 env p =
    Done (GetCurrentProcessId env =? Monarch.GetPID m')
      (connected env p
         (connecting env p ++ [EvAddPeasant m' (_peasant (self p)); EvGetPID m'])).
Proof.
  intros m'. unfold _electionNight2020, bind at 1.
  rewrite createMonarchAndCallbacks_eq.
  wm_open p. subst m'. unfold connected, connecting. wm_run.
  destruct (GetCurrentProcessId env =? _);
    match goal with
    | |- context [match ?o with Some _ => _ | None => _ end] => destruct o
    end; wm_run; reflexivity.
Qed.

(** ** The trace *)

Lemma logged_logged es1 es2 p :
  logged es2 (logged es1 p) = logged (es1 ++ es2) p.
Proof.
  unfold logged; simpl. rewrite app_assoc. reflexivity.
Qed.

Lemma logged_nil p : logged [] p = p.
Proof.
  destruct p; unfold logged; simpl. rewrite app_nil_r. reflexivity.
Qed.

(** ** One iteration of the watcher *)

Lemma loop_step env h r rest p m :
  _monarch (self p) = Some m ->
  let res := WaitForMultipleObjects [OpenProcess r; h] r in
  let p0 := logged (polling m h r) p in
  _waitOnMonarchThread_loop env h (r :: rest) p =
    if res =? WAIT_OBJECT_0 then
      (exitRequested <- _electionNight2020 env ;;
       unique_handle_reset (OpenProcess r) ;;
       if exitRequested : bool then ret tt else _waitOnMonarchThread_loop env h rest)
        (logged [EvTraceLoggingWrite "WindowManager_MonarchDied"] p0)
    else if res =? WAIT_OBJECT_0 + 1 then
      Done tt (logged (EvTraceLoggingWrite "WindowManager_MonarchWaitInterrupted"
                         :: closing (OpenProcess r)) p0)
    else if res =? WAIT_TIMEOUT then
      Done tt (logged (EvPrintf "Wait timed out. This should be impossible.\n" []
                         :: closing (OpenProcess r)) p0)
    else
      Halted (ProcessExit 0)
        (logged [EvPrintf "WaitForMultipleObjects returned: %d\n" [res];
                 EvPrintf "Wait error: %d\n" [GetLastError [OpenProcess r; h] r];
                 EvExitProcess 0] p0).
Proof.
  intros Hm res p0. subst p0. unfold polling. fold res.
  wm_open p.
  cbn [_waitOnMonarchThread_loop].
  fold res. generalize res; clear res; intros res.
  generalize (GetLastError [OpenProcess r; h] r); intros gle.
  unfold withMonarch, this, bind at 1 2; cbn [self _monarch].
  unfold emit, bind at 1 2 3 4. unfold ret at 1. cbn beta iota.
  rewrite !logged_logged. cbn [app].
  change (WAIT_OBJECT_0 + 1) with 1. change WAIT_OBJECT_0 with 0.
  destruct (res =? 0).
  - unfold TraceLoggingWrite, emit, bind. rewrite logged_logged. reflexivity.
  - destruct (res =? 1); [|destruct (res =? WAIT_TIMEOUT)].
    + unfold TraceLoggingWrite, unique_handle_reset, closing, emit, bind, ret.
      destruct (OpenProcess r =? nullptr);
        rewrite !logged_logged; reflexivity.
    + unfold printf, unique_handle_reset, closing, emit, bind, ret.
      destruct (OpenProcess r =? nullptr);
        rewrite !logged_logged; reflexivity.
    + unfold printf, emit, bind, halt.
      rewrite !logged_logged; reflexivity.
Qed.

Lemma loop_null env h r rest p :
  _monarch (self p) = None ->
  _waitOnMonarchThread_loop env h (r :: rest) p = Halted NullReference p.
Proof.
  intros Hm. wm_open p. reflexivity.
Qed.

(** The coordinator died: an election, then out of the loop or round again. *)
Lemma loop_died env h r rest p m :
  _monarch (self p) = Some m ->
  WaitForMultipleObjects [OpenProcess r; h] r = WAIT_OBJECT_0 ->
  let m' := create_instance env (activations p) in
  let p1 :=
    connected env p
      (polling m h r
       ++ [EvTraceLoggingWrite "WindowManager_MonarchDied"]
       ++ connecting env p
       ++ [EvAddPeasant m' (_peasant (self p)); EvGetPID m']
       ++ closing (OpenProcess r)) in
  _waitOnMonarchThread_loop env h (r :: rest) p =
    if GetCurrentProcessId env =? Monarch.GetPID m'
    then Done tt p1
    else _waitOnMonarchThread_loop env h rest p1.
Proof.
  intros Hm Hres m' p1. rewrite (loop_step env h r rest p m Hm).
  cbv zeta. rewrite Hres. change (WAIT_OBJECT_0 =? WAIT_OBJECT_0) with true. cbv iota.
  unfold bind at 1. rewrite electionNight2020_eq.
  assert (Hp1 : unique_handle_reset (OpenProcess r)
            (connected env (logged [EvTraceLoggingWrite "WindowManager_MonarchDied"]
                              (logged (polling m h r) p))
               (connecting env (logged [EvTraceLoggingWrite "WindowManager_MonarchDied"]
                                  (logged (polling m h r) p))
                ++ [EvAddPeasant
                      (create_instance env
                         (activations (logged [EvTraceLoggingWrite "WindowManager_MonarchDied"]
                                         (logged (polling m h r) p))))
                      (_peasant (self (logged [EvTraceLoggingWrite "WindowManager_MonarchDied"]
                                         (logged (polling m h r) p))));
                    EvGetPID
                      (create_instance env
                         (activations (logged [EvTraceLoggingWrite "WindowManager_MonarchDied"]
                                         (logged (polling m h r) p))))]))
          = Done tt p1).
  { subst p1 m'. unfold unique_handle_reset, closing, connected, connecting, emit, ret.
    unfold logged. cbn [self activations allocations trace].
    destruct (OpenProcess r =? nullptr), (_peasant (self p)),
      (GetCurrentProcessId env =? _);
      cbn [trace self activations allocations app];
      repeat rewrite <- app_assoc; cbn [app]; reflexivity. }
  cbn [activations logged] in *. fold m' in Hp1 |- *.
  unfold bind. rewrite Hp1.
  destruct (GetCurrentProcessId env =? Monarch.GetPID m'); reflexivity.
Qed.

Lemma loop_interrupted env h r rest p m :
  _monarch (self p) = Some m ->
  WaitForMultipleObjects [OpenProcess r; h] r = WAIT_OBJECT_0 + 1 ->
  _waitOnMonarchThread_loop env h (r :: rest) p =
    Done tt
      (logged (polling m h r
               ++ EvTraceLoggingWrite "WindowManager_MonarchWaitInterrupted"
                  :: closing (OpenProcess r)) p).
Proof.
  intros Hm Hres. rewrite (loop_step env h r rest p m Hm).
  cbv zeta. rewrite Hres.
  change (WAIT_OBJECT_0 + 1 =? WAIT_OBJECT_0) with false.
  change (WAIT_OBJECT_0 + 1 =? WAIT_OBJECT_0 + 1) with true.
  cbv iota. rewrite logged_logged. reflexivity.
Qed.

Lemma loop_timed_out env h r rest p m :
  _monarch (self p) = Some m ->
  WaitForMultipleObjects [OpenProcess r; h] r = WAIT_TIMEOUT ->
  _waitOnMonarchThread_loop env h (r :: rest) p =
    Done tt
      (logged (polling m h r
               ++ EvPrintf "Wait timed out. This should be impossible.\n" []
                  :: closing (OpenProcess r)) p).
Proof.
  intros Hm Hres. rewrite (loop_step env h r rest p m Hm).
  cbv zeta. rewrite Hres.
  change (WAIT_TIMEOUT =? WAIT_OBJECT_0) with false.
  change (WAIT_TIMEOUT =? WAIT_OBJECT_0 + 1) with false.
  change (WAIT_TIMEOUT =? WAIT_TIMEOUT) with true.
  cbv iota. rewrite logged_logged. reflexivity.
Qed.

Lemma loop_failed env h r rest p m :
  _monarch (self p) = Some m ->
  let res := WaitForMultipleObjects [OpenProcess r; h] r in
  res <> WAIT_OBJECT_0 ->
  res <> WAIT_OBJECT_0 + 1 ->
  res <> WAIT_TIMEOUT ->
  _waitOnMonarchThread_loop env h (r :: rest) p =
    Halted (ProcessExit 0)
      (logged (polling m h r
               ++ [EvPrintf "WaitForMultipleObjects returned: %d\n" [res];
                   EvPrintf "Wait error: %d\n" [GetLastError [OpenProcess r; h] r];
                   EvExitProcess 0]) p).
Proof.
  intros Hm res H0 H1 H2. rewrite (loop_step env h r rest p m Hm).
  cbv zeta. fold res.
  apply Z.eqb_neq in H0, H1, H2. rewrite H0, H1, H2.
  rewrite logged_logged. reflexivity.
Qed.

Lemma wait_result_cases (res : DWORD) :
  res = WAIT_OBJECT_0 \/ res = WAIT_OBJECT_0 + 1 \/ res = WAIT_TIMEOUT \/
  (res <> WAIT_OBJECT_0 /\ res <> WAIT_OBJECT_0 + 1 /\ res <> WAIT_TIMEOUT).
Proof.
  unfold WAIT_OBJECT_0, WAIT_TIMEOUT. lia.
Qed.

(** ** What the watcher can touch: the proxy, the activation count, the trace *)

Lemma process_eta p :
  p = {| self := set_monarch (_monarch (self p)) (self p);
         activations := activations p;
         allocations := allocations p;
         trace := trace p ++ [] |}.
Proof.
  destruct p as [[? ? ? ? ? ?] ? ? ?]. cbn. rewrite app_nil_r. reflexivity.
Qed.

Lemma logged_eta es p :
  logged es p = {| self := set_monarch (_monarch (self p)) (self p);
                   activations := activations p;
                   allocations := allocations p;
                   trace := trace p ++ es |}.
Proof.
  destruct p as [[? ? ? ? ? ?] ? ? ?]. reflexivity.
Qed.

Lemma loop_effect env h schedule :
  forall p, exists mo n es,
    state_of (_waitOnMonarchThread_loop env h schedule p) =
      {| self := set_monarch mo (self p);
         activations := n;
         allocations := allocations p;
         trace := trace p ++ es |}.
Proof.
  induction schedule as [|r rest IH]; intros p.
  - exists (_monarch (self p)), (activations p), []. apply process_eta.
  - destruct (_monarch (self p)) as [m|] eqn:Hm.
    + destruct (wait_result_cases (WaitForMultipleObjects [OpenProcess r; h] r))
        as [H0|[H1|[H2|[H0 [H1 H2]]]]].
      * rewrite (loop_died env h r rest p m Hm H0).
        destruct (GetCurrentProcessId env =? _).
        -- do 3 eexists. reflexivity.
        -- match goal with
           | |- context [_waitOnMonarchThread_loop env h rest ?q] =>
               destruct (IH q) as (mo & n & es & Heq)
           end.
           rewrite Heq. exists mo, n. eexists. unfold connected.
           cbn [self allocations trace]. rewrite <- app_assoc. reflexivity.
      * rewrite (loop_interrupted env h r rest p m Hm H1).
        do 3 eexists. apply logged_eta.
      * rewrite (loop_timed_out env h r rest p m Hm H2).
        do 3 eexists. apply logged_eta.
      * rewrite (loop_failed env h r rest p m Hm H0 H1 H2).
        do 3 eexists. apply logged_eta.
    + rewrite (loop_null env h r rest p Hm).
      exists (_monarch (self p)), (activations p), []. apply process_eta.
Qed.

Lemma loop_extends env h schedule :
  extends (_waitOnMonarchThread_loop env h schedule).
Proof.
  intros p. destruct (loop_effect env h schedule p) as (mo & n & es & Heq).
  exists es. rewrite Heq. reflexivity.
Qed.

(** Every iteration opens with the pid of the connected Monarch, a handle
    derived from it, and the wait. *)
Lemma loop_polls env h r rest p m :
  _monarch (self p) = Some m ->
  exists es,
    trace (state_of (_waitOnMonarchThread_loop env h (r :: rest) p)) =
      trace p ++ polling m h r ++ es.
Proof.
  intros Hm.
  destruct (wait_result_cases (WaitForMultipleObjects [OpenProcess r; h] r))
    as [H0|[H1|[H2|[H0 [H1 H2]]]]].
  - rewrite (loop_died env h r rest p m Hm H0).
    destruct (GetCurrentProcessId env =? _).
    + eexists. reflexivity.
    + match goal with
      | |- context [_waitOnMonarchThread_loop env h rest ?q] =>
          destruct (loop_extends env h rest q) as (es & Heq)
      end.
      rewrite Heq. unfold connected. cbn [trace].
      eexists. rewrite <- !app_assoc. reflexivity.
  - rewrite (loop_interrupted env h r rest p m Hm H1). eexists. reflexivity.
  - rewrite (loop_timed_out env h r rest p m Hm H2). eexists. reflexivity.
  - rewrite (loop_failed env h r rest p m Hm H0 H1 H2). eexists. reflexivity.
Qed.

(** ** Construction *)

Lemma ctor_eq env p :
  CreateEventW env <> nullptr ->
  0 <= fst (CoRegisterClassObject env) ->
  let h := CreateEventW env in
  let hr := fst (CoRegisterClassObject env) in
  let cookie := snd (CoRegisterClassObject env) in
  let m' := create_instance env (activations p) in
  WindowManager_ctor env p =
    Done tt
      {| self := set_monarch (Some m')
                   (set_registrationHostClass cookie
                      (set_monarchWaitInterrupt h (self p)));
         activations := S (activations p);
         allocations := allocations p;
         trace := trace p
                  ++ [EvCreateEvent h; EvCoRegisterClassObject hr cookie]
                  ++ connecting env p |}.
Proof.
  intros Hh Hhr h hr cookie m'. subst h hr cookie m'.
  unfold WindowManager_ctor, bind at 1 2.
  unfold monarchWaitInterrupt_create, _registerAsMonarch.
  destruct (CoRegisterClassObject env) as [hr cookie]. cbn [fst snd] in *.
  apply Z.eqb_neq in Hh. apply Z.ltb_ge in Hhr.
  unfold emit, check_hresult, update, ret, bind.
  rewrite Hh, Hhr. rewrite createMonarchAndCallbacks_eq.
  wm_open p. unfold connected, connecting, logged, modified.
  cbn [self activations allocations trace _peasant set_monarch
       set_registrationHostClass set_monarchWaitInterrupt].
  repeat rewrite <- app_assoc. reflexivity.
Qed.

Lemma ctor_no_event env p :
  CreateEventW env = nullptr ->
  WindowManager_ctor env p = Halted ResultException (logged [EvCreateEvent nullptr] p).
Proof.
  intros Hh. unfold WindowManager_ctor, monarchWaitInterrupt_create, bind, emit.
  rewrite Hh. reflexivity.
Qed.

Lemma ctor_not_registered env p :
  CreateEventW env <> nullptr ->
  fst (CoRegisterClassObject env) < 0 ->
  let h := CreateEventW env in
  let hr := fst (CoRegisterClassObject env) in
  let cookie := snd (CoRegisterClassObject env) in
  WindowManager_ctor env p =
    Halted (HResultError hr)
      (logged [EvCreateEvent h; EvCoRegisterClassObject hr cookie]
         (modified (set_monarchWaitInterrupt h) p)).
Proof.
  intros Hh Hhr h hr cookie. subst h hr cookie.
  unfold WindowManager_ctor, bind at 1 2.
  unfold monarchWaitInterrupt_create, _registerAsMonarch.
  destruct (CoRegisterClassObject env) as [hr cookie]. cbn [fst snd] in *.
  apply Z.eqb_neq in Hh. apply Z.ltb_lt in Hhr.
  unfold bind, emit, check_hresult, update, ret, halt.
  rewrite Hh, Hhr. wm_open p. unfold logged, modified.
  cbn [self activations allocations trace].
  repeat rewrite <- app_assoc. reflexivity.
Qed.

(** ** Destruction *)

Lemma dtor_no_thread env schedule p :
  _electionThread (self p) = NotAThread ->
  WindowManager_dtor env schedule p =
    Done tt
      (logged [EvCoRevokeClassObject (_registrationHostClass (self p));
               EvSetEvent (_monarchWaitInterrupt (self p))]
         (modified (set_registrationHostClass 0) p)).
Proof.
  intros Ht. wm_open p. wm_run. reflexivity.
Qed.

Lemma dtor_finished env schedule p :
  _electionThread (self p) = Finished ->
  WindowManager_dtor env schedule p =
    Done tt
      (modified (set_electionThread NotAThread)
         (logged [EvCoRevokeClassObject (_registrationHostClass (self p));
                  EvSetEvent (_monarchWaitInterrupt (self p));
                  EvThreadJoin]
            (modified (set_registrationHostClass 0) p))).
Proof.
  intros Ht. wm_open p. wm_run. reflexivity.
Qed.

Lemma dtor_running env schedule p :
  _electionThread (self p) = Running ->
  WindowManager_dtor env schedule p =
    match
      _waitOnMonarchThread_loop env (_monarchWaitInterrupt (self p)) schedule
        (logged [EvCoRevokeClassObject (_registrationHostClass (self p));
                 EvSetEvent (_monarchWaitInterrupt (self p));
                 EvThreadJoin]
           (modified (set_registrationHostClass 0) p))
    with
    | Done _ p' => Done tt (modified (set_electionThread NotAThread) p')
    | Halted h p' => Halted h p'
    end.
Proof.
  intros Ht. wm_open p. wm_run.
  match goal with
  | |- context [_waitOnMonarchThread_loop env ?h schedule ?q] =>
      destruct (_waitOnMonarchThread_loop env h schedule q) as [[] [[? ? ? ? ? ?] ? ? ?]|]
  end; reflexivity.
Qed.

(** * The claims *)

(** ** ProposeCommandline *)

(** C1.  For every [args], on a WindowManager connected to a Monarch [m]:
    when the process is king (its pid is the pid [m] reports) the decision is
    [true] and [Monarch.ProposeCommandline] is not called; when it is not
    king the Monarch is asked exactly once, with [args], and the decision is
    its answer.  [ShouldCreateWindow] then returns that decision.  The call
    returns whenever it does not have to start a second watcher thread. *)
Theorem C1_ProposeCommandline_decision env args p m :
  _monarch (self p) = Some m ->
  let king := GetCurrentProcessId env =? Monarch.GetPID m in
  let o := ProposeCommandline env args p in
  exists es,
    trace (state_of o) = trace p ++ es /\
    (if king
     then _shouldCreateWindow (self (state_of o)) = true
          /\ filter isProposeCommandline es = []
     else _shouldCreateWindow (self (state_of o)) = Monarch.ProposeCommandline m args
          /\ filter isProposeCommandline es = [EvProposeCommandline m args]) /\
    ShouldCreateWindow (state_of o) =
      Done (if king then true else Monarch.ProposeCommandline m args) (state_of o) /\
    ((king = false -> joinable (_electionThread (self p)) = false) ->
     o = Done tt (state_of o)).
Proof.
  intros Hm king o. subst king o.
  destruct (Z.eqb_spec (GetCurrentProcessId env) (Monarch.GetPID m)) as [Hk|Hk].
  - rewrite (ProposeCommandline_king env args p m Hm Hk).
    eexists. cbn [state_of trace self]. split; [reflexivity|].
    repeat split; reflexivity.
  - destruct (Monarch.ProposeCommandline m args) eqn:Hd.
    + destruct (joinable (_electionThread (self p))) eqn:Hj.
      * rewrite (ProposeCommandline_subject_twice env args p m Hm Hk Hd Hj).
        eexists. cbn [state_of trace self]. split; [reflexivity|].
        repeat split; try reflexivity.
        intros H. specialize (H eq_refl). discriminate.
      * rewrite (ProposeCommandline_subject_create env args p m Hm Hk Hd Hj).
        eexists. cbn [state_of trace self]. split; [reflexivity|].
        repeat split; reflexivity.
    + rewrite (ProposeCommandline_subject_suppress env args p m Hm Hk Hd).
      eexists. cbn [state_of trace self]. split; [reflexivity|].
      repeat split; reflexivity.
Qed.

(** Scenario B: [P2] proposes a commandline for a window the king owns. *)
Lemma C1_scenario_B :
  _monarch (self (constructed P2)) = Some (monarchIn 0 4100) /\
  ShouldCreateWindow (launched P2 intoWindow1) = Done false (launched P2 intoWindow1).
Proof.
  split; [reflexivity|].
  destruct (C1_ProposeCommandline_decision P2 intoWindow1 (constructed P2)
              (monarchIn 0 4100) eq_refl) as (es & _ & _ & H & _).
  exact H.
Defined.



(** C9.  For every [args], when the decision is "do not create" nothing more
    happens: besides asking the Monarch the call does nothing, no Peasant is
    made, no thread is started, [ExecuteCommandline] is not called, and every
    field of the WindowManager but the decision flag keeps its value. *)
Theorem C9_ProposeCommandline_suppress env args p m :
  _monarch (self p) = Some m ->
  let king := GetCurrentProcessId env =? Monarch.GetPID m in
  (if king then true else Monarch.ProposeCommandline m args) = false ->
  exists p',
    ProposeCommandline env args p = Done tt p' /\
    self p' = set_shouldCreateWindow false (self p) /\
    activations p' = activations p /\
    allocations p' = allocations p /\
    trace p' = trace p ++ [EvGetPID m; EvProposeCommandline m args].
Proof.
  intros Hm king Hd. subst king.
  destruct (Z.eqb_spec (GetCurrentProcessId env) (Monarch.GetPID m)) as [Hk|Hk];
    [discriminate|].
  rewrite (ProposeCommandline_subject_suppress env args p m Hm Hk Hd).
  eexists. split; [reflexivity|]. repeat split; reflexivity.
Qed.

Lemma C9_scenario_B :
  (_monarch (self (constructed P2)) = Some (monarchIn 0 4100) /\
   Monarch.ProposeCommandline (monarchIn 0 4100) intoWindow1 = false) /\
  self (launched P2 intoWindow1) = self (constructed P2) /\
  trace (launched P2 intoWindow1) =
    trace (constructed P2)
    ++ [EvGetPID (monarchIn 0 4100); EvProposeCommandline (monarchIn 0 4100) intoWindow1].
Proof.
  split; [split; reflexivity|].
  destruct (C9_ProposeCommandline_suppress P2 intoWindow1 (constructed P2)
              (monarchIn 0 4100) eq_refl eq_refl)
    as (p' & Hrun & Hself & _ & _ & Htrace).
  unfold launched. rewrite Hrun. cbn [state_of].
  split; [rewrite Hself; reflexivity | exact Htrace].
Defined.

(** ** Kingship *)

(** C2.  [_areWeTheKing] answers [true] if and only if the pid of the process
    equals the pid the connected Monarch reports, and it asks the Monarch
    ([GetPID]) each time it is called, changing nothing of the object.  After
    an election the answer is about the Monarch of the new activation, not the
    one the object was connected to before: the answer [_electionNight2020]
    returns, and the answer of any later check, compare with the new pid. *)
Theorem C2_kingship_recomputed env p m :
  _monarch (self p) = Some m ->
  let m' := create_instance env (activations p) in
  (exists b,
     _areWeTheKing env p = Done b (logged [EvGetPID m] p) /\
     (b = true <-> GetCurrentProcessId env = Monarch.GetPID m)) /\
  (exists b p1 es,
     _electionNight2020 env p = Done b p1 /\
     _monarch (self p1) = Some m' /\
     trace p1 = trace p ++ es ++ [EvGetPID m'] /\
     (b = true <-> GetCurrentProcessId env = Monarch.GetPID m') /\
     _areWeTheKing env p1 = Done b (logged [EvGetPID m'] p1)) /\
  (exists p2,
     _createMonarchAndCallbacks env p = Done tt p2 /\
     _monarch (self p2) = Some m' /\
     _areWeTheKing env p2 =
       Done (GetCurrentProcessId env =? Monarch.GetPID m') (logged [EvGetPID m'] p2)).
Proof.
  intros Hm m'. split; [|split].
  - eexists. split; [apply areWeTheKing_eq; exact Hm | apply Z.eqb_eq].
  - rewrite electionNight2020_eq. fold m'.
    exists (GetCurrentProcessId env =? Monarch.GetPID m').
    eexists. exists (connecting env p ++ [EvAddPeasant m' (_peasant (self p))]).
    split; [reflexivity|].
    split; [reflexivity|].
    split; [unfold connected; cbn [trace]; rewrite <- app_assoc; reflexivity|].
    split; [apply Z.eqb_eq|].
    apply areWeTheKing_eq. reflexivity.
  - rewrite createMonarchAndCallbacks_eq.
    eexists. split; [reflexivity|]. split; [reflexivity|].
    apply areWeTheKing_eq. reflexivity.
Qed.

(** Scenario C for [P2]: a subject before the election, king after it. *)
Lemma C2_scenario_C :
  _monarch (self (launched P2 plainLaunch)) = Some (monarchIn 0 4100) /\
  (exists b,
     _areWeTheKing P2 (launched P2 plainLaunch) =
       Done b (logged [EvGetPID (monarchIn 0 4100)] (launched P2 plainLaunch)) /\
     (b = true <-> 5200 = 4100)) /\
  (exists b p1 es,
     _electionNight2020 P2 (launched P2 plainLaunch) = Done b p1 /\
     _monarch (self p1) = Some (monarchIn 1 5200) /\
     trace p1 = trace (launched P2 plainLaunch) ++ es ++ [EvGetPID (monarchIn 1 5200)] /\
     (b = true <-> 5200 = 5200) /\
     _areWeTheKing P2 p1 = Done b (logged [EvGetPID (monarchIn 1 5200)] p1)).
Proof.
  split; [reflexivity|].
  pose proof (C2_kingship_recomputed P2 (launched P2 plainLaunch) (monarchIn 0 4100) eq_refl)
    as H.
  split; [exact (proj1 H) | exact (proj1 (proj2 H))].
Defined.

(** ** The election watcher *)

Lemma waitOnMonarchThread_eq env schedule p :
  _waitOnMonarchThread env schedule p =
    _waitOnMonarchThread_loop env (_monarchWaitInterrupt (self p)) schedule p.
Proof. reflexivity. Qed.

Lemma connecting_with_peasant env p x :
  _peasant (self p) = Some x ->
  let m' := create_instance env (activations p) in
  connecting env p =
    [EvCreateInstance m'; EvGetPID m';
     EvTraceLoggingWrite "WindowManager_ConnectedToMonarch";
     EvHandleActivatePeasant m' x]
    ++ (if GetCurrentProcessId env =? Monarch.GetPID m'
        then [EvFindTargetWindowRequested m']
        else []).
Proof.
  intros Hx m'. unfold connecting. rewrite Hx. reflexivity.
Qed.

(** C3.  When the wait of the watcher reports that the coordinator's handle
    is signalled, the watcher does, in this order: the connect step of the
    constructor ([_createMonarchAndCallbacks]: a new activation [m'], its pid,
    and the [FindTargetWindowRequested] subscription when the process owns
    [m']), [AddPeasant] of the local Peasant on [m'], and the kingship check
    on [m'].  If the process is now king the watcher leaves its loop; if not
    it goes round again, and the next iteration derives its handle from the
    pid of [m'] and waits on it. *)
Theorem C3_election_round env p m x r rest :
  _monarch (self p) = Some m ->
  _peasant (self p) = Some x ->
  let h := _monarchWaitInterrupt (self p) in
  WaitForMultipleObjects [OpenProcess r; h] r = WAIT_OBJECT_0 ->
  let m' := create_instance env (activations p) in
  let king := GetCurrentProcessId env =? Monarch.GetPID m' in
  exists p1,
    _monarch (self p1) = Some m' /\
    trace p1 =
      trace p
      ++ polling m h r
      ++ [EvTraceLoggingWrite "WindowManager_MonarchDied"]
      ++ [EvCreateInstance m'; EvGetPID m';
          EvTraceLoggingWrite "WindowManager_ConnectedToMonarch";
          EvHandleActivatePeasant m' x]
      ++ (if king then [EvFindTargetWindowRequested m'] else [])
      ++ [EvAddPeasant m' (Some x); EvGetPID m']
      ++ closing (OpenProcess r) /\
    (forall q, trace (state_of (_createMonarchAndCallbacks env q)) =
               trace q ++ connecting env q) /\
    _waitOnMonarchThread env (r :: rest) p =
      (if king then Done tt p1 else _waitOnMonarchThread_loop env h rest p1) /\
    (king = false ->
     _waitOnMonarchThread_loop env h [] p1 = Halted Pending p1 /\
     forall r2 rest2, exists es,
       trace (state_of (_waitOnMonarchThread_loop env h (r2 :: rest2) p1)) =
         trace p1
         ++ [EvGetPID m';
             EvOpenProcess (static_cast_DWORD (Monarch.GetPID m')) (OpenProcess r2);
             EvWaitForMultipleObjects [OpenProcess r2; h]
               (WaitForMultipleObjects [OpenProcess r2; h] r2)]
         ++ es).
Proof.
  intros Hm Hx h Hres m' king.
  eexists. split; [|split; [|split; [|split]]].
  4: { rewrite waitOnMonarchThread_eq. fold h.
       rewrite (loop_died env h r rest p m Hm Hres). fold m'. fold king. reflexivity. }
  - reflexivity.
  - unfold connected. cbn [trace]. rewrite (connecting_with_peasant env p x Hx).
    fold m'. fold king. rewrite Hx. repeat rewrite <- app_assoc. reflexivity.
  - intros q. rewrite createMonarchAndCallbacks_eq. reflexivity.
  - intros _. split; [reflexivity|].
    intros r2 rest2.
    match goal with
    | |- context [_waitOnMonarchThread_loop env h (r2 :: rest2) ?q] =>
        destruct (loop_polls env h r2 rest2 q m' eq_refl) as (es & Hes)
    end.
    exists es. exact Hes.
Qed.

(** Scenario C: the king dies; [P2] wins the election and its watcher is
    done, [P3] loses it and watches [P2]. *)
Lemma C3_scenario_C :
  (_monarch (self (launched P3 plainLaunch)) = Some (monarchIn 0 4100) /\
   _peasant (self (launched P3 plainLaunch)) = Some {| Peasant.ref := 0 |} /\
   WaitForMultipleObjects [OpenProcess monarchDied; 80] monarchDied = WAIT_OBJECT_0) /\
  exists p1,
    _monarch (self p1) = Some (monarchIn 1 5200) /\
    _waitOnMonarchThread P3 [monarchDied] (launched P3 plainLaunch) = Halted Pending p1.
Proof.
  split; [repeat split; reflexivity|].
  destruct (C3_election_round P3 (launched P3 plainLaunch) (monarchIn 0 4100)
              {| Peasant.ref := 0 |} monarchDied [] eq_refl eq_refl eq_refl)
    as (p1 & Hm' & _ & _ & Hrun & Hnext).
  exists p1. split; [exact Hm'|].
  rewrite Hrun. exact (proj1 (Hnext eq_refl)).
Defined.

(** C10.  When [OpenProcess] returns no handle the watcher goes on to wait:
    the null handle is the first entry of the wait, the wait fails, and the
    invalid result ends the process.  No election takes place: the process
    made no activation and called no Monarch but for the pid. *)
Theorem C10_unopened_coordinator env p m r rest :
  _monarch (self p) = Some m ->
  OpenProcess r = nullptr ->
  let h := _monarchWaitInterrupt (self p) in
  _waitOnMonarchThread env (r :: rest) p =
    Halted (ProcessExit 0)
      (logged
         [EvGetPID m;
          EvOpenProcess (static_cast_DWORD (Monarch.GetPID m)) nullptr;
          EvWaitForMultipleObjects [nullptr; h] WAIT_FAILED;
          EvPrintf "WaitForMultipleObjects returned: %d\n" [WAIT_FAILED];
          EvPrintf "Wait error: %d\n" [ERROR_INVALID_HANDLE];
          EvExitProcess 0] p).
Proof.
  intros Hm Hopen h. rewrite waitOnMonarchThread_eq. fold h.
  assert (Hres : WaitForMultipleObjects [OpenProcess r; h] r = WAIT_FAILED).
  { unfold WaitForMultipleObjects. rewrite Hopen. reflexivity. }
  assert (Hgle : GetLastError [OpenProcess r; h] r = ERROR_INVALID_HANDLE).
  { unfold GetLastError. rewrite Hopen. reflexivity. }
  rewrite (loop_failed env h r rest p m Hm); cbv zeta;
    rewrite ?Hres; try discriminate.
  unfold polling. rewrite Hres, Hgle, Hopen. reflexivity.
Qed.

Lemma C10_coordinator_already_gone :
  (_monarch (self (launched P3 plainLaunch)) = Some (monarchIn 0 4100) /\
   OpenProcess notOpened = nullptr) /\
  _waitOnMonarchThread P3 [notOpened; monarchDied] (launched P3 plainLaunch) =
    Halted (ProcessExit 0)
      (logged
         [EvGetPID (monarchIn 0 4100);
          EvOpenProcess 4100 nullptr;
          EvWaitForMultipleObjects [nullptr; 80] WAIT_FAILED;
          EvPrintf "WaitForMultipleObjects returned: %d\n" [WAIT_FAILED];
          EvPrintf "Wait error: %d\n" [ERROR_INVALID_HANDLE];
          EvExitProcess 0] (launched P3 plainLaunch)).
Proof.
  split; [split; reflexivity|].
  exact (C10_unopened_coordinator P3 (launched P3 plainLaunch) (monarchIn 0 4100)
           notOpened [monarchDied] eq_refl eq_refl).
Defined.




(** ** Construction and destruction *)

(** C8, as stated, fails: the constructor revokes nothing.  [P1] is
    constructed and no [CoRevokeClassObject] is among its calls. *)
Lemma C8_no_revoke_on_construction :
  WindowManager_ctor P1 (unconstructed false 0) = Done tt (constructed P1) /\
  ~ (exists es1 cookie es2,
       trace (constructed P1) = es1 ++ EvCoRevokeClassObject cookie :: es2).
Proof.
  split; [reflexivity|].
  intros (es1 & cookie & es2 & H).
  assert (Hin : In (EvCoRevokeClassObject cookie) (trace (constructed P1))).
  { rewrite H. apply in_elt. }
  vm_compute in Hin.
  repeat (destruct Hin as [Hin|Hin]; [discriminate Hin|]).
  exact Hin.
Qed.

(** C8, amended.  On construction the steps are, in this order: create the
    interrupt event of the watcher, register the process as a provider of the
    Monarch class, connect to obtain a Monarch handle, and compute kingship
    by comparing the pid of the process with the pid the Monarch reports (a
    king then subscribes to [FindTargetWindowRequested]).  Nothing is
    revoked. *)
Theorem C8_construction_order env flag cookie0 :
  CreateEventW env <> nullptr ->
  0 <= fst (CoRegisterClassObject env) ->
  let h := CreateEventW env in
  let hr := fst (CoRegisterClassObject env) in
  let cookie := snd (CoRegisterClassObject env) in
  let m' := create_instance env 0 in
  let king := GetCurrentProcessId env =? Monarch.GetPID m' in
  exists p,
    WindowManager_ctor env (unconstructed flag cookie0) = Done tt p /\
    trace p =
      [EvCreateEvent h;
       EvCoRegisterClassObject hr cookie;
       EvCreateInstance m';
       EvGetPID m';
       EvTraceLoggingWrite "WindowManager_ConnectedToMonarch"]
      ++ (if king then [EvFindTargetWindowRequested m'] else []) /\
    filter isCoRevokeClassObject (trace p) = [] /\
    self p =
      {| _shouldCreateWindow := flag;
         _registrationHostClass := cookie;
         _monarch := Some m';
         _peasant := None;
         _monarchWaitInterrupt := h;
         _electionThread := NotAThread |} /\
    _areWeTheKing env p = Done king (logged [EvGetPID m'] p).
Proof.
  intros Hh Hhr h hr cookie m' king.
  rewrite (ctor_eq env (unconstructed flag cookie0) Hh Hhr).
  eexists. split; [reflexivity|].
  cbn [trace self unconstructed activations app].
  unfold connecting. cbn [unconstructed self _peasant activations app].
  fold m'. fold king. fold h. fold hr. fold cookie.
  split; [reflexivity|].
  split; [destruct king; reflexivity|].
  split; [reflexivity|].
  apply areWeTheKing_eq. reflexivity.
Qed.

(** Scenario A: [P1] is constructed and is king. *)
Lemma C8_scenario_A :
  (CreateEventW P1 <> nullptr /\ 0 <= fst (CoRegisterClassObject P1)) /\
  trace (constructed P1) =
    [EvCreateEvent 72;
     EvCoRegisterClassObject 0 1;
     EvCreateInstance (monarchIn 0 4100);
     EvGetPID (monarchIn 0 4100);
     EvTraceLoggingWrite "WindowManager_ConnectedToMonarch";
     EvFindTargetWindowRequested (monarchIn 0 4100)].
Proof.
  assert (Hh : CreateEventW P1 <> nullptr) by discriminate.
  assert (Hhr : 0 <= fst (CoRegisterClassObject P1)) by (cbn; lia).
  split; [split; assumption|].
  destruct (C8_construction_order P1 false 0 Hh Hhr) as (p & Hrun & Htrace & _).
  unfold constructed. rewrite Hrun. exact Htrace.
Defined.

Lemma dtor_done env schedule p p' :
  WindowManager_dtor env schedule p = Done tt p' ->
  _electionThread (self p') = NotAThread /\
  _registrationHostClass (self p') = 0 /\
  _monarchWaitInterrupt (self p') = _monarchWaitInterrupt (self p).
Proof.
  destruct (_electionThread (self p)) eqn:Ht; intros Hrun.
  - rewrite (dtor_no_thread env schedule p Ht) in Hrun.
    injection Hrun as <-. cbn. rewrite Ht. repeat split; reflexivity.
  - rewrite (dtor_running env schedule p Ht) in Hrun.
    match type of Hrun with
    | context [_waitOnMonarchThread_loop env ?h schedule ?q] =>
        destruct (loop_effect env h schedule q) as (mo & n & es & Heq);
        destruct (_waitOnMonarchThread_loop env h schedule q) as [[] q'|]
    end; [|discriminate].
    injection Hrun as <-. cbn [state_of] in Heq. subst q'.
    repeat split; reflexivity.
  - rewrite (dtor_finished env schedule p Ht) in Hrun.
    injection Hrun as <-. repeat split; reflexivity.
Qed.

(** C7.  On destruction the registration is revoked first and its cookie
    cleared, then the interrupt of the watcher is set, then the election
    thread is joined, under the guard [joinable].  Without a thread to join
    (never started, or joined by an earlier teardown) the join step is
    skipped; a thread whose function already returned is joined at once,
    with no wait and no watcher activity; a running watcher is waited for,
    and the destructor completes when the watcher meets the interrupt.  When
    the destructor has completed no thread is left to join, and a second
    teardown revokes cookie 0, sets the event and joins nothing. *)
Theorem C7_destruction_order env schedule p :
  let c := _registrationHostClass (self p) in
  let h := _monarchWaitInterrupt (self p) in
  let teardown := [EvCoRevokeClassObject c; EvSetEvent h] in
  let o := WindowManager_dtor env schedule p in
  (exists es,
     trace (state_of o) =
       trace p ++ teardown
       ++ (if joinable (_electionThread (self p)) then EvThreadJoin :: es else [])) /\
  (_electionThread (self p) = NotAThread ->
   o = Done tt (logged teardown (modified (set_registrationHostClass 0) p))) /\
  (_electionThread (self p) = Finished ->
   o = Done tt (modified (set_electionThread NotAThread)
                  (logged (teardown ++ [EvThreadJoin])
                     (modified (set_registrationHostClass 0) p)))) /\
  (_electionThread (self p) = Running ->
   (forall p', o = Done tt p' ->
      exists q,
        _waitOnMonarchThread_loop env h schedule
          (logged (teardown ++ [EvThreadJoin])
             (modified (set_registrationHostClass 0) p)) = Done tt q /\
        p' = modified (set_electionThread NotAThread) q) /\
   (forall m r rest,
      _monarch (self p) = Some m ->
      schedule = r :: rest ->
      WaitForMultipleObjects [OpenProcess r; h] r = WAIT_OBJECT_0 + 1 ->
      o = Done tt
            (modified (set_electionThread NotAThread)
               (logged (teardown ++ [EvThreadJoin] ++ polling m h r
                        ++ EvTraceLoggingWrite "WindowManager_MonarchWaitInterrupted"
                           :: closing (OpenProcess r))
                  (modified (set_registrationHostClass 0) p))))) /\
  (forall p',
     o = Done tt p' ->
     joinable (_electionThread (self p')) = false /\
     _registrationHostClass (self p') = 0 /\
     forall schedule',
       WindowManager_dtor env schedule' p' =
         Done tt (logged [EvCoRevokeClassObject 0; EvSetEvent h]
                    (modified (set_registrationHostClass 0) p'))).
Proof.
  intros c h teardown o. subst c h teardown o.
  split; [|split; [|split; [|split]]].
  - destruct (_electionThread (self p)) eqn:Ht; cbn [joinable].
    + rewrite (dtor_no_thread env schedule p Ht). exists []. reflexivity.
    + rewrite (dtor_running env schedule p Ht).
      match goal with
      | |- context [_waitOnMonarchThread_loop env ?h schedule ?q] =>
          destruct (loop_extends env h schedule q) as (es & Hes);
          destruct (_waitOnMonarchThread_loop env h schedule q) as [[] q'|hh q']
      end; cbn [state_of modified trace logged] in *; rewrite Hes;
        exists es; rewrite <- !app_assoc; reflexivity.
    + rewrite (dtor_finished env schedule p Ht). exists [].
      cbn [state_of modified trace logged]. reflexivity.
  - intros Ht. apply (dtor_no_thread env schedule p Ht).
  - intros Ht. apply (dtor_finished env schedule p Ht).
  - intros Ht. split.
    + intros p' Hrun. rewrite (dtor_running env schedule p Ht) in Hrun.
      cbn [app].
      match type of Hrun with
      | context [_waitOnMonarchThread_loop env ?h schedule ?q] =>
          destruct (_waitOnMonarchThread_loop env h schedule q) as [[] q'|]
      end; [|discriminate].
      injection Hrun as <-. exists q'. split; reflexivity.
    + intros m r rest Hm -> Hres.
      rewrite (dtor_running env (r :: rest) p Ht).
      rewrite (loop_interrupted env _ r rest _ m); [|exact Hm|exact Hres].
      rewrite logged_logged. reflexivity.
  - intros p' Hrun. destruct (dtor_done env schedule p p' Hrun) as (Ht & Hc & Hh).
    split; [rewrite Ht; reflexivity|]. split; [exact Hc|].
    intros schedule'. rewrite (dtor_no_thread env schedule' p' Ht), Hc, Hh. reflexivity.
Qed.

(** ** How many watchers *)

Lemma watchersStarted_app es1 es2 :
  watchersStarted (es1 ++ es2) = (watchersStarted es1 + watchersStarted es2)%nat.
Proof.
  unfold watchersStarted. rewrite filter_app, length_app. reflexivity.
Qed.








(** A teardown while the watcher of [P3] runs. *)
Lemma C7_teardown_of_a_subject :
  exists p',
    WindowManager_dtor P3 [interrupted] (launched P3 plainLaunch) = Done tt p' /\
    joinable (_electionThread (self p')) = false /\
    _registrationHostClass (self p') = 0 /\
    trace p' =
      trace (launched P3 plainLaunch)
      ++ [EvCoRevokeClassObject 3; EvSetEvent 80; EvThreadJoin;
          EvGetPID (monarchIn 0 4100);
          EvOpenProcess 4100 344;
          EvWaitForMultipleObjects [344; 80] (WAIT_OBJECT_0 + 1);
          EvTraceLoggingWrite "WindowManager_MonarchWaitInterrupted";
          EvCloseHandle 344].
Proof.
  pose proof (C7_destruction_order P3 [interrupted] (launched P3 plainLaunch)) as H.
  cbv zeta in H. destruct H as (_ & _ & _ & Hrunning & Hdone).
  destruct (Hrunning eq_refl) as [_ Hrun].
  specialize (Hrun (monarchIn 0 4100) interrupted [] eq_refl eq_refl eq_refl).
  eexists. split; [exact Hrun|].
  specialize (Hdone _ Hrun). destruct Hdone as (Hj & Hc & _).
  split; [exact Hj|]. split; [exact Hc|]. reflexivity.
Defined.

(** * More of WindowManager.cpp *)

(** ** Counting events *)

Lemma count_app f es1 es2 :
  count f (es1 ++ es2) = (count f es1 + count f es2)%nat.
Proof.
  unfold count. rewrite filter_app, length_app. reflexivity.
Qed.

Lemma died_events env p m h r :
  let m' := create_instance env (activations p) in
  let es := polling m h r
            ++ [EvTraceLoggingWrite "WindowManager_MonarchDied"]
            ++ connecting env p
            ++ [EvAddPeasant m' (_peasant (self p)); EvGetPID m']
            ++ closing (OpenProcess r) in
  count isCreateInstance es = 1%nat /\
  count isAddPeasant es = 1%nat /\
  count isOpenedHandle es = count isCloseHandle es /\
  Forall (registers (_peasant (self p))) es.
Proof.
  intros m' es. subst es m'. unfold polling, closing, connecting, count, registers.
  generalize (_peasant (self p)) as x. intros x.
  generalize (create_instance env (activations p)) as m'. intros m'.
  destruct (OpenProcess r =? nullptr) eqn:E, x,
    (GetCurrentProcessId env =? Monarch.GetPID m');
    cbn; rewrite ?E; cbn; repeat split; auto; repeat constructor.
Qed.

Lemma stop_events m h r e (x : option Peasant.t) :
  isCreateInstance e = false -> isAddPeasant e = false ->
  isOpenedHandle e = false -> isCloseHandle e = false ->
  let es := polling m h r ++ e :: closing (OpenProcess r) in
  count isCreateInstance es = 0%nat /\
  count isAddPeasant es = 0%nat /\
  count isOpenedHandle es = count isCloseHandle es /\
  Forall (registers x) es.
Proof.
  intros H1 H2 H3 H4 es. subst es. unfold polling, closing, count.
  cbn. rewrite H1, H2, H3, H4.
  destruct (OpenProcess r =? nullptr) eqn:E; cbn; rewrite ?E; cbn; repeat split; auto;
    repeat constructor; destruct e; try discriminate; exact I.
Qed.

Lemma failed_events m h r a b a' c (x : option Peasant.t) :
  let es := polling m h r ++ [EvPrintf a b; EvPrintf a' c; EvExitProcess 0] in
  count isCreateInstance es = 0%nat /\
  count isAddPeasant es = 0%nat /\
  count isCloseHandle es = 0%nat /\
  (count isOpenedHandle es <= 1)%nat /\
  Forall (registers x) es.
Proof.
  intros es. subst es. unfold polling, count. cbn.
  destruct (OpenProcess r =? nullptr); cbn; repeat split; auto; repeat constructor.
Qed.

Lemma loop_summary env h schedule :
  forall p m,
    _monarch (self p) = Some m ->
    exists m' n es,
      state_of (_waitOnMonarchThread_loop env h schedule p) =
        {| self := set_monarch (Some m') (self p);
           activations := (activations p + n)%nat;
           allocations := allocations p;
           trace := trace p ++ es |} /\
      (n <= List.length schedule)%nat /\
      count isCreateInstance es = n /\
      count isAddPeasant es = n /\
      Forall (registers (_peasant (self p))) es /\
      watcher_outcome (_waitOnMonarchThread_loop env h schedule p) es.
Proof.
  induction schedule as [|r rest IH]; intros p m Hm.
  - exists m, 0%nat, []. cbn [_waitOnMonarchThread_loop halt state_of].
    split; [|repeat split; auto; cbn; lia].
    destruct p as [[? ? ? ? ? ?] ? ? ?]. cbn in Hm. subst.
    cbn. rewrite app_nil_r, Nat.add_0_r. reflexivity.
  - destruct (wait_result_cases (WaitForMultipleObjects [OpenProcess r; h] r))
      as [H0|[H1|[H2|[H0 [H1 H2]]]]].
    + rewrite (loop_died env h r rest p m Hm H0).
      destruct (died_events env p m h r) as (Hci & Hap & Hoc & Hreg).
      destruct (GetCurrentProcessId env =? _).
      * exists (create_instance env (activations p)), 1%nat. eexists.
        split; [unfold connected; cbn [state_of]; rewrite Nat.add_1_r; reflexivity|].
        cbn [List.length]. repeat split; auto; try lia.
      * match goal with
        | |- context [_waitOnMonarchThread_loop env h rest ?q] =>
            destruct (IH q (create_instance env (activations p)) eq_refl)
              as (m' & n & es & Heq & Hn & Hci' & Hap' & Hreg' & Hout)
        end.
        rewrite Heq. exists m', (S n).
        exists ((polling m h r
                 ++ [EvTraceLoggingWrite "WindowManager_MonarchDied"]
                 ++ connecting env p
                 ++ [EvAddPeasant (create_instance env (activations p)) (_peasant (self p));
                     EvGetPID (create_instance env (activations p))]
                 ++ closing (OpenProcess r)) ++ es).
        split; [unfold connected; cbn [self activations allocations trace set_monarch];
                rewrite <- app_assoc, Nat.add_succ_r; reflexivity|].
        cbn [List.length].
        rewrite (count_app isCreateInstance _ es), (count_app isAddPeasant _ es).
        rewrite Hci, Hap, Hci', Hap'.
        split; [lia|]. split; [reflexivity|]. split; [reflexivity|].
        split; [apply Forall_app; split; assumption|].
        unfold watcher_outcome in *.
        match goal with
        | |- context [_waitOnMonarchThread_loop env h rest ?q] =>
            destruct (_waitOnMonarchThread_loop env h rest q) as [[] ?|[] ?]
        end;
          rewrite ?(count_app isOpenedHandle _ es), ?(count_app isCloseHandle _ es);
          try lia; try contradiction.
    + rewrite (loop_interrupted env h r rest p m Hm H1).
      destruct (stop_events m h r (EvTraceLoggingWrite "WindowManager_MonarchWaitInterrupted")
                  (_peasant (self p)) eq_refl eq_refl eq_refl eq_refl)
        as (Hci & Hap & Hoc & Hreg).
      exists m, 0%nat. eexists.
      split; [cbn [state_of]; rewrite logged_eta, Hm, Nat.add_0_r; reflexivity|].
      cbn [List.length]. repeat split; auto; try lia.
    + rewrite (loop_timed_out env h r rest p m Hm H2).
      destruct (stop_events m h r (EvPrintf "Wait timed out. This should be impossible.\n" [])
                  (_peasant (self p)) eq_refl eq_refl eq_refl eq_refl)
        as (Hci & Hap & Hoc & Hreg).
      exists m, 0%nat. eexists.
      split; [cbn [state_of]; rewrite logged_eta, Hm, Nat.add_0_r; reflexivity|].
      cbn [List.length]. repeat split; auto; try lia.
    + rewrite (loop_failed env h r rest p m Hm H0 H1 H2).
      match goal with
      | |- context [EvPrintf ?a ?b :: EvPrintf ?a' ?c :: _] =>
          destruct (failed_events m h r a b a' c (_peasant (self p)))
            as (Hci & Hap & Hcl & Hop & Hreg)
      end.
      exists m, 0%nat. eexists.
      split; [cbn [state_of]; rewrite logged_eta, Hm, Nat.add_0_r; reflexivity|].
      cbn [List.length]. repeat split; auto; try lia.
Qed.

(** ** A registration that is refused *)

(** X1.  When [CoRegisterClassObject] reports a failure code the constructor
    throws it ([check_hresult]) right after the call: no Monarch was
    activated, the object has no proxy, and the interrupt event and the
    refused registration are all the process did. *)
Theorem X1_registration_refused env flag cookie0 :
  CreateEventW env <> nullptr ->
  fst (CoRegisterClassObject env) < 0 ->
  exists p,
    WindowManager_ctor env (unconstructed flag cookie0) =
      Halted (HResultError (fst (CoRegisterClassObject env))) p /\
    _monarch (self p) = None /\
    activations p = 0%nat /\
    count isCreateInstance (trace p) = 0%nat /\
    trace p =
      [EvCreateEvent (CreateEventW env);
       EvCoRegisterClassObject (fst (CoRegisterClassObject env))
         (snd (CoRegisterClassObject env))].
Proof.
  intros Hh Hhr.
  rewrite (ctor_not_registered env (unconstructed flag cookie0) Hh Hhr).
  eexists. split; [reflexivity|]. repeat split; reflexivity.
Qed.

Lemma X1_refused_with_E_FAIL :
  (CreateEventW P4 <> nullptr /\ fst (CoRegisterClassObject P4) < 0) /\
  exists p,
    WindowManager_ctor P4 (unconstructed false 0) = Halted (HResultError (-2147467259)) p /\
    _monarch (self p) = None.
Proof.
  assert (Hh : CreateEventW P4 <> nullptr) by discriminate.
  assert (Hhr : fst (CoRegisterClassObject P4) < 0) by reflexivity.
  split; [split; assumption|].
  destruct (X1_registration_refused P4 false 0 Hh Hhr) as (p & Hrun & Hm & _).
  exists p. split; assumption.
Defined.

(** ** What a proposal leaves alone *)

Lemma ProposeCommandline_null env args p :
  _monarch (self p) = None ->
  ProposeCommandline env args p = Halted NullReference p.
Proof.
  intros Hm. wm_open p. reflexivity.
Qed.

(** However a proposal ends, the connection of the object is as before. *)
Lemma ProposeCommandline_frame env args p :
  let p' := state_of (ProposeCommandline env args p) in
  _monarch (self p') = _monarch (self p) /\
  _registrationHostClass (self p') = _registrationHostClass (self p) /\
  _monarchWaitInterrupt (self p') = _monarchWaitInterrupt (self p) /\
  activations p' = activations p /\
  exists es,
    trace p' = trace p ++ es /\
    count isCreateInstance es = 0%nat /\
    count isCoRevokeClassObject es = 0%nat /\
    count isSetEvent es = 0%nat.
Proof.
  intros p'. subst p'.
  destruct (_monarch (self p)) as [m|] eqn:Hm.
  - destruct (Z.eqb_spec (GetCurrentProcessId env) (Monarch.GetPID m)) as [Hk|Hk].
    + rewrite (ProposeCommandline_king env args p m Hm Hk).
      cbn [state_of self trace activations set_peasant set_shouldCreateWindow
           _monarch _registrationHostClass _monarchWaitInterrupt].
      repeat split; auto. eexists. split; [reflexivity|]. repeat split; reflexivity.
    + destruct (Monarch.ProposeCommandline m args) eqn:Hd.
      * destruct (joinable (_electionThread (self p))) eqn:Hj.
        -- rewrite (ProposeCommandline_subject_twice env args p m Hm Hk Hd Hj).
           cbn [state_of self trace activations set_peasant set_shouldCreateWindow
                _monarch _registrationHostClass _monarchWaitInterrupt].
           repeat split; auto. eexists. split; [reflexivity|]. repeat split; reflexivity.
        -- rewrite (ProposeCommandline_subject_create env args p m Hm Hk Hd Hj).
           cbn [state_of self trace activations set_peasant set_shouldCreateWindow
                set_electionThread _monarch _registrationHostClass _monarchWaitInterrupt].
           repeat split; auto. eexists. split; [reflexivity|]. repeat split; reflexivity.
      * rewrite (ProposeCommandline_subject_suppress env args p m Hm Hk Hd).
        cbn [state_of self trace activations set_shouldCreateWindow
             _monarch _registrationHostClass _monarchWaitInterrupt].
        repeat split; auto. eexists. split; [reflexivity|]. repeat split; reflexivity.
  - rewrite (ProposeCommandline_null env args p Hm). cbn [state_of].
    repeat split; auto. exists []. rewrite app_nil_r. repeat split; reflexivity.
Qed.

(** X2.  Whatever the arguments, the state of the object and the way the call
    ends, [ProposeCommandline] leaves the connection alone: the Monarch
    proxy, the registration cookie and the interrupt event are the same
    afterwards, no Monarch is activated, nothing is revoked, the interrupt is
    not set.  So the answer of the kingship check is the same before and
    after a proposal. *)
Theorem X2_ProposeCommandline_keeps_connection env args p :
  let p' := state_of (ProposeCommandline env args p) in
  _monarch (self p') = _monarch (self p) /\
  _registrationHostClass (self p') = _registrationHostClass (self p) /\
  _monarchWaitInterrupt (self p') = _monarchWaitInterrupt (self p) /\
  activations p' = activations p /\
  (exists es,
     trace p' = trace p ++ es /\
     count isCreateInstance es = 0%nat /\
     count isCoRevokeClassObject es = 0%nat /\
     count isSetEvent es = 0%nat) /\
  (forall b q, _areWeTheKing env p = Done b q ->
     exists q', _areWeTheKing env p' = Done b q').
Proof.
  intros p'.
  destruct (ProposeCommandline_frame env args p) as (Hm & Hc & Hh & Ha & Hes).
  fold p' in Hm, Hc, Hh, Ha, Hes.
  repeat (split; [assumption|]).
  intros b q Hking.
  destruct (_monarch (self p)) as [m|] eqn:Hmp.
  - rewrite (areWeTheKing_eq env p m Hmp) in Hking. injection Hking as <- _.
    rewrite (areWeTheKing_eq env p' m Hm). eexists. reflexivity.
  - rewrite (areWeTheKing_null env p Hmp) in Hking. discriminate.
Qed.

(** ** The window of the process *)

(** X3.  On a connected object that has no Peasant yet, a proposal that
    returns leaves [CurrentWindow] and [ShouldCreateWindow] in step: the
    process has a Peasant, the one made by this call, exactly when the
    decision is "create". *)
Theorem X3_CurrentWindow_after_proposal env args p m :
  _monarch (self p) = Some m ->
  _peasant (self p) = None ->
  (GetCurrentProcessId env <> Monarch.GetPID m ->
   joinable (_electionThread (self p)) = false) ->
  exists p' b es,
    ProposeCommandline env args p = Done tt p' /\
    ShouldCreateWindow p' = Done b p' /\
    CurrentWindow p' =
      Done (if b then Some {| Peasant.ref := allocations p |} else None) p' /\
    trace p' = trace p ++ es /\
    count isMakePeasant es = (if b then 1 else 0)%nat.
Proof.
  intros Hm Hx Hj.
  destruct (Z.eqb_spec (GetCurrentProcessId env) (Monarch.GetPID m)) as [Hk|Hk].
  - rewrite (ProposeCommandline_king env args p m Hm Hk).
    eexists. exists true. eexists. split; [reflexivity|].
    repeat split; reflexivity.
  - destruct (Monarch.ProposeCommandline m args) eqn:Hd.
    + rewrite (ProposeCommandline_subject_create env args p m Hm Hk Hd (Hj Hk)).
      eexists. exists true. eexists. split; [reflexivity|].
      repeat split; reflexivity.
    + rewrite (ProposeCommandline_subject_suppress env args p m Hm Hk Hd).
      eexists. exists false. eexists. split; [reflexivity|].
      split; [reflexivity|].
      split; [unfold CurrentWindow, bind, this, ret; cbn; rewrite Hx; reflexivity|].
      split; reflexivity.
Qed.

Lemma X3_scenarios_A_and_B :
  (_monarch (self (constructed P2)) = Some (monarchIn 0 4100) /\
   _peasant (self (constructed P2)) = None) /\
  exists p' b,
    ProposeCommandline P2 intoWindow1 (constructed P2) = Done tt p' /\
    ShouldCreateWindow p' = Done b p' /\
    CurrentWindow p' = Done (if b then Some {| Peasant.ref := 0 |} else None) p'.
Proof.
  split; [split; reflexivity|].
  destruct (X3_CurrentWindow_after_proposal P2 intoWindow1 (constructed P2)
              (monarchIn 0 4100) eq_refl eq_refl (fun _ => eq_refl))
    as (p' & b & es & Hrun & Hs & Hc & _).
  exists p', b. repeat split; assumption.
Defined.

(** ** A second proposal *)

(** X4.  A subject that was told to create its window and is told so again
    does not survive the second proposal: the second thread object is
    started and assigned to [_electionThread], which still holds the first
    watcher, and that is [std::terminate].  The first commandline was
    executed, the second never is. *)
Theorem X4_second_creating_proposal env args1 args2 p m :
  _monarch (self p) = Some m ->
  GetCurrentProcessId env <> Monarch.GetPID m ->
  joinable (_electionThread (self p)) = false ->
  Monarch.ProposeCommandline m args1 = true ->
  Monarch.ProposeCommandline m args2 = true ->
  exists p' es,
    (ProposeCommandline env args1 ;; ProposeCommandline env args2) p =
      Halted StdTerminate p' /\
    trace p' = trace p ++ es /\
    watchersStarted es = 2%nat /\
    filter isExecuteCommandline es =
      [EvExecuteCommandline {| Peasant.ref := allocations p |} args1] /\
    last es EvThreadJoin = EvThreadStart.
Proof.
  intros Hm Hk Hj Hd1 Hd2. unfold bind.
  rewrite (ProposeCommandline_subject_create env args1 p m Hm Hk Hd1 Hj).
  rewrite (ProposeCommandline_subject_twice env args2 _ m); try assumption; try reflexivity.
  cbn [trace self allocations].
  do 2 eexists. split; [reflexivity|].
  split; [rewrite <- app_assoc; reflexivity|].
  repeat split; reflexivity.
Qed.

Lemma X4_P3_launched_twice :
  (_monarch (self (constructed P3)) = Some (monarchIn 0 4100) /\
   GetCurrentProcessId P3 <> Monarch.GetPID (monarchIn 0 4100) /\
   joinable (_electionThread (self (constructed P3))) = false) /\
  exists p',
    (ProposeCommandline P3 plainLaunch ;; ProposeCommandline P3 plainLaunch)
      (constructed P3) = Halted StdTerminate p'.
Proof.
  assert (Hk : GetCurrentProcessId P3 <> Monarch.GetPID (monarchIn 0 4100)) by discriminate.
  split; [repeat split; try reflexivity; exact Hk|].
  destruct (X4_second_creating_proposal P3 plainLaunch plainLaunch (constructed P3)
              (monarchIn 0 4100) eq_refl Hk eq_refl eq_refl eq_refl)
    as (p' & es & Hrun & _).
  exists p'. exact Hrun.
Defined.

(** ** What the watcher does, whatever it meets *)

Lemma watcher_summary env schedule p m :
  _monarch (self p) = Some m ->
  exists m' n es,
    state_of (_waitOnMonarchThread env schedule p) =
      {| self := set_monarch (Some m') (self p);
         activations := (activations p + n)%nat;
         allocations := allocations p;
         trace := trace p ++ es |} /\
    (n <= List.length schedule)%nat /\
    count isCreateInstance es = n /\
    count isAddPeasant es = n /\
    Forall (registers (_peasant (self p))) es /\
    watcher_outcome (_waitOnMonarchThread env schedule p) es.
Proof.
  intros Hm. rewrite waitOnMonarchThread_eq.
  apply (loop_summary env _ schedule p m Hm).
Qed.

(** X5.  The watcher of a connected object only ever replaces the Monarch
    proxy: the decision flag, the registration cookie, the Peasant, the
    interrupt event and the thread member are as before, however the run
    ends, and no object was allocated.  It activates at most one Monarch per
    iteration, and the object is connected afterwards. *)
Theorem X5_watcher_frame env schedule p m :
  _monarch (self p) = Some m ->
  let p' := state_of (_waitOnMonarchThread env schedule p) in
  (exists m', self p' = set_monarch (Some m') (self p)) /\
  allocations p' = allocations p /\
  (activations p <= activations p' <= activations p + List.length schedule)%nat.
Proof.
  intros Hm p'. subst p'.
  destruct (watcher_summary env schedule p m Hm) as (m' & n & es & Heq & Hn & _).
  rewrite Heq. cbn [self allocations activations].
  split; [exists m'; reflexivity|]. split; [reflexivity|]. lia.
Qed.

Lemma X5_watcher_of_P3 :
  _monarch (self (launched P3 plainLaunch)) = Some (monarchIn 0 4100) /\
  _peasant (self (state_of (_waitOnMonarchThread P3 [monarchDied; timedOut]
                              (launched P3 plainLaunch))))
  = Some {| Peasant.ref := 0 |}.
Proof.
  split; [reflexivity|].
  destruct (X5_watcher_frame P3 [monarchDied; timedOut] (launched P3 plainLaunch)
              (monarchIn 0 4100) eq_refl) as ((m' & Hself) & _).
  rewrite Hself. reflexivity.
Defined.







(** ** Elections that are lost *)

Lemma loop_lost_elections env h schedule :
  (forall n, Monarch.GetPID (create_instance env n) <> GetCurrentProcessId env) ->
  Forall (fun r => WaitForMultipleObjects [OpenProcess r; h] r = WAIT_OBJECT_0) schedule ->
  forall p m,
    _monarch (self p) = Some m ->
    exists p',
      _waitOnMonarchThread_loop env h schedule p = Halted Pending p' /\
      activations p' = (activations p + List.length schedule)%nat /\
      _monarch (self p') =
        Some (match schedule with
              | [] => m
              | _ :: _ => create_instance env (activations p + List.length schedule - 1)
              end) /\
      count isFindTargetWindowRequested
        (skipn (List.length (trace p)) (trace p')) = 0%nat.
Proof.
  intros Hsubject Hall. induction Hall as [|r rest Hr Hrest IH]; intros p m Hm.
  - exists p. cbn [List.length]. rewrite Nat.add_0_r, skipn_all. repeat split; auto.
  - rewrite (loop_died env h r rest p m Hm Hr).
    destruct (Z.eqb_spec (GetCurrentProcessId env)
                (Monarch.GetPID (create_instance env (activations p)))) as [Hk|Hk];
      [exfalso; apply (Hsubject (activations p)); symmetry; exact Hk|].
    match goal with
    | |- context [_waitOnMonarchThread_loop env h rest ?q] =>
        destruct (IH q (create_instance env (activations p)) eq_refl)
          as (p' & Hrun & Hact & Hmon & Hsub);
        set (p1 := q) in *
    end.
    exists p'. split; [exact Hrun|].
    assert (Hact1 : activations p1 = S (activations p)) by reflexivity.
    split; [rewrite Hact, Hact1; cbn [List.length]; lia|].
    split.
    + rewrite Hmon. f_equal. destruct rest as [|r2 rest2].
      * cbn [List.length]. f_equal. lia.
      * rewrite Hact1. f_equal. cbn [List.length]. lia.
    + destruct (loop_extends env h rest p1) as (es & Hes).
      rewrite Hrun in Hes. cbn [state_of] in Hes.
      rewrite Hes in Hsub |- *. rewrite skipn_app, skipn_all, Nat.sub_diag in Hsub.
      cbn [skipn app] in Hsub.
      subst p1. unfold connected in *. cbn [trace] in *.
      rewrite <- app_assoc, skipn_app, skipn_all, Nat.sub_diag. cbn [skipn app].
      rewrite count_app, Hsub, Nat.add_0_r.
      apply Z.eqb_neq in Hk.
      unfold polling, closing, connecting, count. rewrite Hk.
      destruct (OpenProcess r =? nullptr), (_peasant (self p)); reflexivity.
Qed.

(** X9.  A watcher never gives up: as long as every wait reports the death
    of the coordinator and every activation reaches a Monarch of another
    process, the watcher stays in its loop, holding after each lost election
    the proxy of the latest activation, and it never subscribes to
    [FindTargetWindowRequested]. *)
Theorem X9_lost_elections_keep_the_watcher env schedule p m :
  _monarch (self p) = Some m ->
  (forall n, Monarch.GetPID (create_instance env n) <> GetCurrentProcessId env) ->
  Forall (fun r => WaitForMultipleObjects
                     [OpenProcess r; _monarchWaitInterrupt (self p)] r = WAIT_OBJECT_0)
    schedule ->
  exists p' es,
    _waitOnMonarchThread env schedule p = Halted Pending p' /\
    trace p' = trace p ++ es /\
    count isFindTargetWindowRequested es = 0%nat /\
    activations p' = (activations p + List.length schedule)%nat /\
    (schedule <> [] ->
     _monarch (self p') =
       Some (create_instance env (activations p + List.length schedule - 1))).
Proof.
  intros Hm Hsubject Hall. rewrite waitOnMonarchThread_eq.
  destruct (loop_lost_elections env _ schedule Hsubject Hall p m Hm)
    as (p' & Hrun & Hact & Hmon & Hsub).
  destruct (loop_extends env (_monarchWaitInterrupt (self p)) schedule p) as (es & Hes).
  rewrite Hrun in Hes. cbn [state_of] in Hes.
  exists p', es. split; [exact Hrun|]. split; [exact Hes|].
  rewrite Hes, skipn_app, skipn_all, Nat.sub_diag in Hsub. cbn [skipn app] in Hsub.
  split; [exact Hsub|]. split; [exact Hact|].
  intros Hne. rewrite Hmon. destruct schedule; [contradiction|reflexivity].
Qed.

Lemma X9_P3_loses_twice :
  (_monarch (self (launched P3 plainLaunch)) = Some (monarchIn 0 4100) /\
   (forall n, Monarch.GetPID (create_instance P3 n) <> GetCurrentProcessId P3) /\
   Forall (fun r => WaitForMultipleObjects
                      [OpenProcess r; _monarchWaitInterrupt (self (launched P3 plainLaunch))] r
                    = WAIT_OBJECT_0)
     [monarchDied; monarchDied]) /\
  exists p',
    _waitOnMonarchThread P3 [monarchDied; monarchDied] (launched P3 plainLaunch)
    = Halted Pending p' /\
    activations p' = 3%nat.
Proof.
  assert (Hs : forall n, Monarch.GetPID (create_instance P3 n) <> GetCurrentProcessId P3).
  { intros [|n]; discriminate. }
  assert (Hall : Forall (fun r => WaitForMultipleObjects
                      [OpenProcess r; _monarchWaitInterrupt (self (launched P3 plainLaunch))] r
                    = WAIT_OBJECT_0)
     [monarchDied; monarchDied]).
  { repeat constructor. }
  split; [split; [reflexivity|split; assumption]|].
  destruct (X9_lost_elections_keep_the_watcher P3 [monarchDied; monarchDied]
              (launched P3 plainLaunch) (monarchIn 0 4100) eq_refl Hs Hall)
    as (p' & es & Hrun & _ & _ & Hact & _).
  exists p'. split; [exact Hrun | exact Hact].
Defined.

(** ** A king that proposes again and again *)

Lemma proposals_of_a_king env argss :
  forall p m,
    _monarch (self p) = Some m ->
    GetCurrentProcessId env = Monarch.GetPID m ->
    exists p' es,
      proposals env argss p = Done tt p' /\
      trace p' = trace p ++ es /\
      allocations p' = (allocations p + List.length argss)%nat /\
      _electionThread (self p') = _electionThread (self p) /\
      watchersStarted es = 0%nat /\
      count isProposeCommandline es = 0%nat /\
      count isAddPeasant es = List.length argss /\
      count isExecuteCommandline es = List.length argss /\
      match argss with
      | [] => self p' = self p
      | _ :: _ =>
          _shouldCreateWindow (self p') = true /\
          _peasant (self p') =
            Some {| Peasant.ref := (allocations p + List.length argss - 1)%nat |}
      end.
Proof.
  induction argss as [|args rest IH]; intros p m Hm Hk.
  - exists p, []. cbn [proposals ret List.length].
    rewrite app_nil_r, Nat.add_0_r. repeat split; reflexivity.
  - cbn [proposals]. unfold bind.
    rewrite (ProposeCommandline_king env args p m Hm Hk).
    match goal with
    | |- context [proposals env rest ?q] =>
        destruct (IH q m Hm Hk)
          as (p' & es & Hrun & Htr & Hal & Hth & Hw & Hpc & Hap & Hex & Hlast);
        set (p1 := q) in *
    end.
    exists p'. eexists. split; [exact Hrun|].
    split; [rewrite Htr; subst p1; cbn [trace]; rewrite <- app_assoc; reflexivity|].
    assert (Hal1 : allocations p1 = S (allocations p)) by reflexivity.
    split; [rewrite Hal, Hal1; cbn [List.length]; lia|].
    split; [rewrite Hth; reflexivity|].
    split; [rewrite watchersStarted_app, Hw; reflexivity|].
    split; [rewrite count_app, Hpc; reflexivity|].
    split; [rewrite count_app, Hap; reflexivity|].
    split; [rewrite count_app, Hex; reflexivity|].
    destruct rest as [|args2 rest2].
    + rewrite Hlast. subst p1. cbn [self set_peasant set_shouldCreateWindow
                                   _shouldCreateWindow _peasant List.length].
      split; [reflexivity|]. do 2 f_equal. lia.
    + destruct Hlast as [Hs Hx]. split; [exact Hs|].
      rewrite Hx, Hal1. do 2 f_equal. cbn [List.length]. lia.
Qed.

(** X10.  A king may propose as often as it likes.  Every proposal returns
    with the decision "create", asks no Monarch for a decision, starts no
    watcher thread, registers one more Peasant and executes one more
    commandline; the Peasant of the process is the one of the last proposal,
    which replaced the earlier ones. *)
Theorem X10_proposals_of_a_king env argss p m :
  _monarch (self p) = Some m ->
  GetCurrentProcessId env = Monarch.GetPID m ->
  exists p' es,
    proposals env argss p = Done tt p' /\
    trace p' = trace p ++ es /\
    allocations p' = (allocations p + List.length argss)%nat /\
    _electionThread (self p') = _electionThread (self p) /\
    watchersStarted es = 0%nat /\
    count isProposeCommandline es = 0%nat /\
    count isAddPeasant es = List.length argss /\
    count isExecuteCommandline es = List.length argss /\
    (argss <> [] ->
     _shouldCreateWindow (self p') = true /\
     _peasant (self p') =
       Some {| Peasant.ref := (allocations p + List.length argss - 1)%nat |}).
Proof.
  intros Hm Hk.
  destruct (proposals_of_a_king env argss p m Hm Hk)
    as (p' & es & Hrun & Htr & Hal & Hth & Hw & Hpc & Hap & Hex & Hlast).
  exists p', es. repeat (split; [assumption|]).
  intros Hne. destruct argss; [contradiction|exact Hlast].
Qed.

Lemma X10_P1_proposes_twice :
  (_monarch (self (constructed P1)) = Some (monarchIn 0 4100) /\
   GetCurrentProcessId P1 = Monarch.GetPID (monarchIn 0 4100)) /\
  exists p',
    proposals P1 [plainLaunch; intoWindow1] (constructed P1) = Done tt p' /\
    _peasant (self p') = Some {| Peasant.ref := 1 |}.
Proof.
  split; [split; reflexivity|].
  destruct (X10_proposals_of_a_king P1 [plainLaunch; intoWindow1] (constructed P1)
              (monarchIn 0 4100) eq_refl eq_refl)
    as (p' & es & Hrun & _ & _ & _ & _ & _ & _ & _ & Hlast).
  exists p'. split; [exact Hrun|].
  exact (proj2 (Hlast ltac:(discriminate))).
Defined.

(** ** What teardown undoes *)

Lemma ctor_done env flag cookie0 p0 :
  WindowManager_ctor env (unconstructed flag cookie0) = Done tt p0 ->
  _registrationHostClass (self p0) = snd (CoRegisterClassObject env) /\
  _monarchWaitInterrupt (self p0) = CreateEventW env /\
  _monarch (self p0) = Some (create_instance env 0).
Proof.
  intros Hrun.
  destruct (Z.eqb_spec (CreateEventW env) nullptr) as [Hh|Hh].
  - rewrite (ctor_no_event env _ Hh) in Hrun. discriminate.
  - destruct (Z.ltb_spec (fst (CoRegisterClassObject env)) 0) as [Hhr|Hhr].
    + rewrite (ctor_not_registered env _ Hh Hhr) in Hrun. discriminate.
    + rewrite (ctor_eq env _ Hh Hhr) in Hrun. injection Hrun as <-.
      repeat split; reflexivity.
Qed.

Lemma proposals_frame env argss :
  forall p p',
    proposals env argss p = Done tt p' ->
    _monarch (self p') = _monarch (self p) /\
    _registrationHostClass (self p') = _registrationHostClass (self p) /\
    _monarchWaitInterrupt (self p') = _monarchWaitInterrupt (self p).
Proof.
  induction argss as [|args rest IH]; intros p p' Hrun.
  - injection Hrun as <-. repeat split; reflexivity.
  - cbn [proposals] in Hrun. unfold bind in Hrun.
    destruct (ProposeCommandline_frame env args p) as (Hm & Hc & Hh & _).
    destruct (ProposeCommandline env args p) as [[] q|h q]; [|discriminate].
    cbn [state_of] in Hm, Hc, Hh.
    destruct (IH q p' Hrun) as (Hm' & Hc' & Hh').
    rewrite Hm', Hc', Hh'. repeat split; assumption.
Qed.

Lemma dtor_trace env schedule p :
  exists es,
    trace (state_of (WindowManager_dtor env schedule p)) =
      trace p
      ++ [EvCoRevokeClassObject (_registrationHostClass (self p));
          EvSetEvent (_monarchWaitInterrupt (self p))]
      ++ es.
Proof.
  destruct (_electionThread (self p)) eqn:Ht.
  - rewrite (dtor_no_thread env schedule p Ht). exists []. reflexivity.
  - rewrite (dtor_running env schedule p Ht).
    match goal with
    | |- context [_waitOnMonarchThread_loop env ?h schedule ?q] =>
        destruct (loop_extends env h schedule q) as (es & Hes);
        destruct (_waitOnMonarchThread_loop env h schedule q) as [[] q'|hh q']
    end; cbn [state_of modified trace logged] in *; rewrite Hes;
      exists (EvThreadJoin :: es); rewrite <- !app_assoc; reflexivity.
  - rewrite (dtor_finished env schedule p Ht). exists [EvThreadJoin].
    cbn [state_of modified trace logged]. reflexivity.
Qed.

(** X11.  Teardown undoes what construction set up: whatever proposals the
    object served and however far its watcher got, the destructor begins by
    revoking the cookie that the registration of the constructor returned
    and then sets the very event the constructor created. *)
Theorem X11_teardown_pairs_with_construction
    env flag cookie0 argss watched schedule p0 p1 :
  WindowManager_ctor env (unconstructed flag cookie0) = Done tt p0 ->
  proposals env argss p0 = Done tt p1 ->
  let p2 := state_of (_waitOnMonarchThread env watched p1) in
  exists es,
    trace (state_of (WindowManager_dtor env schedule p2)) =
      trace p2
      ++ [EvCoRevokeClassObject (snd (CoRegisterClassObject env));
          EvSetEvent (CreateEventW env)]
      ++ es.
Proof.
  intros Hctor Hprop p2.
  destruct (ctor_done env flag cookie0 p0 Hctor) as (Hc0 & Hh0 & _).
  destruct (proposals_frame env argss p0 p1 Hprop) as (_ & Hc1 & Hh1).
  destruct (loop_effect env (_monarchWaitInterrupt (self p1)) watched p1)
    as (mo & n & es2 & Heq).
  assert (Hc2 : _registrationHostClass (self p2) = snd (CoRegisterClassObject env)).
  { subst p2. rewrite waitOnMonarchThread_eq, Heq. cbn. congruence. }
  assert (Hh2 : _monarchWaitInterrupt (self p2) = CreateEventW env).
  { subst p2. rewrite waitOnMonarchThread_eq, Heq. cbn. congruence. }
  destruct (dtor_trace env schedule p2) as (es & Hes).
  exists es. rewrite Hes, Hc2, Hh2. reflexivity.
Qed.

Lemma X11_life_of_P3 :
  (WindowManager_ctor P3 (unconstructed false 0) = Done tt (constructed P3) /\
   proposals P3 [plainLaunch] (constructed P3) = Done tt (launched P3 plainLaunch)) /\
  exists es,
    trace (state_of (WindowManager_dtor P3 [interrupted]
                       (state_of (_waitOnMonarchThread P3 [monarchDied]
                                    (launched P3 plainLaunch))))) =
      trace (state_of (_waitOnMonarchThread P3 [monarchDied] (launched P3 plainLaunch)))
      ++ [EvCoRevokeClassObject 3; EvSetEvent 80]
      ++ es.
Proof.
  assert (H0 : WindowManager_ctor P3 (unconstructed false 0) = Done tt (constructed P3))
    by (vm_compute; reflexivity).
  assert (H1 : proposals P3 [plainLaunch] (constructed P3) = Done tt (launched P3 plainLaunch))
    by (vm_compute; reflexivity).
  split; [split; assumption|].
  exact (X11_teardown_pairs_with_construction P3 false 0 [plainLaunch] [monarchDied]
           [interrupted] (constructed P3) (launched P3 plainLaunch) H0 H1).
Defined.

(** X12.  When the interrupt event cannot be created the constructor stops
    at its first step: the process was not registered as a provider of the
    Monarch class and no Monarch was activated, so there is nothing to
    revoke. *)
Theorem X12_no_event_no_registration env flag cookie0 :
  CreateEventW env = nullptr ->
  exists p,
    WindowManager_ctor env (unconstructed flag cookie0) = Halted ResultException p /\
    self p = self (unconstructed flag cookie0) /\
    activations p = 0%nat /\
    trace p = [EvCreateEvent nullptr].
Proof.
  intros Hh. rewrite (ctor_no_event env (unconstructed flag cookie0) Hh).
  eexists. split; [reflexivity|]. repeat split; reflexivity.
Qed.

Lemma X12_out_of_handles :
  CreateEventW {| GetCurrentProcessId := 7400;
                  CreateEventW := nullptr;
                  CoRegisterClassObject := (0, 4);
                  create_instance := succession |} = nullptr /\
  exists p,
    WindowManager_ctor {| GetCurrentProcessId := 7400;
                          CreateEventW := nullptr;
                          CoRegisterClassObject := (0, 4);
                          create_instance := succession |}
      (unconstructed false 0) = Halted ResultException p /\
    trace p = [EvCreateEvent nullptr].
Proof.
  split; [reflexivity|].
  destruct (X12_no_event_no_registration
              {| GetCurrentProcessId := 7400;
                 CreateEventW := nullptr;
                 CoRegisterClassObject := (0, 4);
                 create_instance := succession |} false 0 eq_refl)
    as (p & Hrun & _ & _ & Htrace).
  exists p. split; [exact Hrun | exact Htrace].
Defined.

(** X13.  A process whose commandline the Monarch passed to someone else
    tears down at once: after such a proposal the destructor revokes the
    registration, sets the interrupt and returns without joining anything,
    whatever a watcher would have met, and the object never had a Peasant
    or a thread. *)
Theorem X13_teardown_of_a_suppressed_process env args schedule p m :
  _monarch (self p) = Some m ->
  GetCurrentProcessId env <> Monarch.GetPID m ->
  Monarch.ProposeCommandline m args = false ->
  _electionThread (self p) = NotAThread ->
  exists p',
    (ProposeCommandline env args ;; WindowManager_dtor env schedule) p = Done tt p' /\
    trace p' =
      trace p
      ++ [EvGetPID m; EvProposeCommandline m args;
          EvCoRevokeClassObject (_registrationHostClass (self p));
          EvSetEvent (_monarchWaitInterrupt (self p))] /\
    self p' = set_registrationHostClass 0 (set_shouldCreateWindow false (self p)) /\
    allocations p' = allocations p.
Proof.
  intros Hm Hk Hd Ht. unfold bind.
  rewrite (ProposeCommandline_subject_suppress env args p m Hm Hk Hd).
  rewrite dtor_no_thread; [|exact Ht].
  eexists. split; [reflexivity|].
  cbn [logged modified trace self allocations set_shouldCreateWindow
       _registrationHostClass _monarchWaitInterrupt].
  split; [rewrite <- app_assoc; reflexivity|]. split; reflexivity.
Qed.

Lemma X13_scenario_B_teardown :
  (_monarch (self (constructed P2)) = Some (monarchIn 0 4100) /\
   GetCurrentProcessId P2 <> Monarch.GetPID (monarchIn 0 4100) /\
   Monarch.ProposeCommandline (monarchIn 0 4100) intoWindow1 = false /\
   _electionThread (self (constructed P2)) = NotAThread) /\
  exists p',
    (ProposeCommandline P2 intoWindow1 ;; WindowManager_dtor P2 [monarchDied])
      (constructed P2) = Done tt p' /\
    trace p' =
      trace (constructed P2)
      ++ [EvGetPID (monarchIn 0 4100); EvProposeCommandline (monarchIn 0 4100) intoWindow1;
          EvCoRevokeClassObject 2; EvSetEvent 76].
Proof.
  assert (Hk : GetCurrentProcessId P2 <> Monarch.GetPID (monarchIn 0 4100)) by discriminate.
  split; [repeat split; try reflexivity; exact Hk|].
  destruct (X13_teardown_of_a_suppressed_process P2 intoWindow1 [monarchDied]
              (constructed P2) (monarchIn 0 4100) eq_refl Hk eq_refl eq_refl)
    as (p' & Hrun & Htrace & _).
  exists p'. split; [exact Hrun | exact Htrace].
Defined.
